(** * common/utility.py: bulk insert, dry run and table description

    A shallow embedding of [src/common/utility.py] and of the parts of
    Python, NumPy and psycopg whose behaviour the functions rely on,
    followed by the properties of the four functions. *)

From Stdlib Require Import ZArith String Ascii Bool Lia DecimalString List Sorted.
Import ListNotations.
Open Scope string_scope.

(** ** Python values, exceptions and string helpers *)

Module Py.

(** The Python objects that occur as cells of a result set or as
    elements of an object array.  [PyOther] stands for any further
    object that NumPy stores by reference (a Decimal, a datetime, a
    [pandas.NA], a [UserString], ...).  It is given by its [str()] and
    by what Python's [+] makes of it next to a string: [radd s] is the
    value of [s + o], through the [__radd__] of the object, and
    [add s] the value of [o + s], through its [__add__]; [None] says
    that the operand is not supported, where Python raises a
    [TypeError].  An object is described as deep as the additions of
    a call go, which is two.  A method that raises an exception of its
    own, and Python floats, are not covered. *)
#[warning="-register-all"]
Inductive object :=
| PyNone
| PyBool (b : bool)
| PyInt (z : Z)
| PyStr (s : string)
| PyOther (repr : string) (radd add : string -> option object).

(** The exceptions the functions can end with.  [TypeError] and
    [IndexError] are raised inside NumPy, [ProgrammingError] and
    [DatabaseError] inside psycopg; their messages are not modelled. *)
Inductive exn :=
| AssertionError (msg : string)
| TypeError
| ValueError (msg : string)
| IndexError
| ProgrammingError
| DatabaseError.

Inductive result (A : Type) :=
| Ok (a : A)
| Raise (e : exn).
Arguments Ok {A} a.
Arguments Raise {A} e.

Definition str_of_int (z : Z) : string := NilZero.string_of_int (Z.to_int z).
Definition str_of_nat (n : nat) : string := str_of_int (Z.of_nat n).
Definition str_of_bool (b : bool) : string := if b then "True" else "False".

(** [str(o)] *)
Definition str (o : object) : string :=
  match o with
  | PyNone => "None"
  | PyBool b => str_of_bool b
  | PyInt z => str_of_int z
  | PyStr s => s
  | PyOther r _ _ => r
  end.

(** [s + o] for a Python string [s]: concatenation for a string, the
    [__radd__] of the object for another object, and no supported
    operand for [None], a bool or an int. *)
Definition radd (s : string) (o : object) : option object :=
  match o with
  | PyStr x => Some (PyStr (s ++ x))
  | PyOther _ r _ => r s
  | _ => None
  end.

(** [o + s] for a Python string [s] *)
Definition add (o : object) (s : string) : option object :=
  match o with
  | PyStr x => Some (PyStr (x ++ s))
  | PyOther _ _ a => a s
  | _ => None
  end.

(** [sep.join(l)] *)
Definition join (sep : string) (l : list string) : string := String.concat sep l.

(** [repr] of a tuple of ints, as an f-string renders [data.shape]. *)
Definition tuple_repr (t : list nat) : string :=
  match t with
  | [] => "()"
  | [n] => "(" ++ str_of_nat n ++ ",)"
  | _ => "(" ++ join ", " (map str_of_nat t) ++ ")"
  end.

Definition is_str (o : object) : bool :=
  match o with PyStr _ => true | _ => false end.

End Py.

Import Py.

(** ** NumPy arrays *)

Module Np.

(** The element buffer, in row-major order, tagged by its dtype.
    A float64 element is kept as its IEEE-754 bit pattern. *)
Inductive buffer :=
| BBool (l : list bool)
| BInt (l : list Z)
| BFloat (l : list Z)
| BStr (l : list string)
| BObject (l : list Py.object).

Record ndarray := mk_ndarray { shape : list nat; buf : buffer }.

Inductive dtype := DBool | DInt | DFloat | DStr | DObject.

Definition dtype_of (a : ndarray) : dtype :=
  match buf a with
  | BBool _ => DBool
  | BInt _ => DInt
  | BFloat _ => DFloat
  | BStr _ => DStr
  | BObject _ => DObject
  end.

Definition buf_size (b : buffer) : nat :=
  match b with
  | BBool l => length l
  | BInt l => length l
  | BFloat l => length l
  | BStr l => length l
  | BObject l => length l
  end.

Definition prod (s : list nat) : nat := fold_right Nat.mul 1 s.

(** An array holds as many elements as its shape says. *)
Definition wf (a : ndarray) : bool := Nat.eqb (buf_size (buf a)) (prod (shape a)).

(** [len(a.shape)] *)
Definition ndim (a : ndarray) : nat := length (shape a).

(** [a.shape[1]]; only used on arrays of rank 2. *)
Definition shape1 (a : ndarray) : nat := nth 1 (shape a) 0.

(** [len(a)] of an array of rank at least 1. *)
Definition len (a : ndarray) : nat := nth 0 (shape a) 0.

Section Stringify.
(** NumPy's rendering of a float64 as text is left abstract. *)
Variable float_str : Z -> string.

(** The elements after [astype(str)]. *)
Definition elems_str (b : buffer) : list string :=
  match b with
  | BBool l => map Py.str_of_bool l
  | BInt l => map Py.str_of_int l
  | BFloat l => map float_str l
  | BStr l => l
  | BObject l => map Py.str l
  end.

(** [a.astype(str)] *)
Definition astype_str (a : ndarray) : ndarray :=
  mk_ndarray (shape a) (BStr (elems_str (buf a))).
End Stringify.

(** [s + a] for a Python string [s]: defined by NumPy for string
    arrays, done element by element with Python's own [+] for object
    arrays, where the first element that does not support it ends the
    call with a [TypeError], and without a matching loop for every
    other dtype, whatever the size. *)
Fixpoint radd_objects (s : string) (l : list Py.object) : result (list Py.object) :=
  match l with
  | [] => Ok []
  | o :: l' =>
      match Py.radd s o with
      | None => Raise TypeError
      | Some o' =>
          match radd_objects s l' with
          | Ok r => Ok (o' :: r)
          | Raise e => Raise e
          end
      end
  end.

Fixpoint add_objects (l : list Py.object) (s : string) : result (list Py.object) :=
  match l with
  | [] => Ok []
  | o :: l' =>
      match Py.add o s with
      | None => Raise TypeError
      | Some o' =>
          match add_objects l' s with
          | Ok r => Ok (o' :: r)
          | Raise e => Raise e
          end
      end
  end.

Definition radd_str (s : string) (a : ndarray) : result ndarray :=
  match buf a with
  | BStr l => Ok (mk_ndarray (shape a) (BStr (map (fun x => s ++ x) l)))
  | BObject l =>
      match radd_objects s l with
      | Ok r => Ok (mk_ndarray (shape a) (BObject r))
      | Raise e => Raise e
      end
  | _ => Raise TypeError
  end.

Definition add_str (a : ndarray) (s : string) : result ndarray :=
  match buf a with
  | BStr l => Ok (mk_ndarray (shape a) (BStr (map (fun x => x ++ s) l)))
  | BObject l =>
      match add_objects l s with
      | Ok r => Ok (mk_ndarray (shape a) (BObject r))
      | Raise e => Raise e
      end
  | _ => Raise TypeError
  end.

(** Cutting a row-major buffer into [r] rows of [c] elements. *)
Fixpoint chunks {A : Type} (r c : nat) (l : list A) : list (list A) :=
  match r with
  | O => []
  | S r' => firstn c l :: chunks r' c (skipn c l)
  end.

(** Iterating over a string array of rank 2 yields its rows. *)
Definition rows_str (a : ndarray) : list (list string) :=
  match shape a, buf a with
  | [r; c], BStr l => chunks r c l
  | _, _ => []
  end.

(** The same operation on the elements, whatever the dtype. *)
Definition buf_apply (f : forall A : Type, list A -> list A) (b : buffer) : buffer :=
  match b with
  | BBool l => BBool (f _ l)
  | BInt l => BInt (f _ l)
  | BFloat l => BFloat (f _ l)
  | BStr l => BStr (f _ l)
  | BObject l => BObject (f _ l)
  end.

(** [a.flatten()] *)
Definition flatten (a : ndarray) : ndarray := mk_ndarray [prod (shape a)] (buf a).

(** [a[:k]] *)
Definition slice_to (k : nat) (a : ndarray) : result ndarray :=
  match shape a with
  | [] => Raise IndexError
  | n :: rest =>
      let n' := Nat.min n k in
      Ok (mk_ndarray (n' :: rest) (buf_apply (fun A => firstn (n' * prod rest)) (buf a)))
  end.

(** Every [m]-th element, [n] of them, starting with the first. *)
Fixpoint every_nth {A : Type} (m n : nat) (l : list A) : list A :=
  match n with
  | O => []
  | S n' => (firstn 1 l ++ every_nth m n' (skipn m l))%list
  end.

(** [a[..., 0]] *)
Definition index_last0 (a : ndarray) : result ndarray :=
  match rev (shape a) with
  | [] => Raise IndexError
  | O :: _ => Raise IndexError
  | S m :: rest =>
      let s := rev rest in
      Ok (mk_ndarray s (buf_apply (fun A => every_nth (S m) (prod s)) (buf a)))
  end.

(** A NumPy scalar, as indexing an array of rank 1 returns it. *)
Inductive scalar :=
| SBool (b : bool)
| SInt (z : Z)
| SFloat (bits : Z)
| SStr (s : string)
| SObject (o : Py.object).

(** [a[0]] for an array of rank 1 *)
Definition item0 (a : ndarray) : result scalar :=
  match buf a with
  | BBool (x :: _) => Ok (SBool x)
  | BInt (x :: _) => Ok (SInt x)
  | BFloat (x :: _) => Ok (SFloat x)
  | BStr (x :: _) => Ok (SStr x)
  | BObject (x :: _) => Ok (SObject x)
  | _ => Raise IndexError
  end.

(** [np.full(shape, s)] for a Python string [s] *)
Definition full_str (s : list nat) (x : string) : ndarray :=
  mk_ndarray s (BStr (repeat x (prod s))).

(** [np.concat([a, b], axis=0)].  The source only joins two string
    arrays; other pairs of dtypes are not needed and end in a
    [TypeError] here. *)
Definition concat0 (a b : ndarray) : result ndarray :=
  match shape a, shape b with
  | n :: ra, m :: rb =>
      if list_eq_dec Nat.eq_dec ra rb then
        match buf a, buf b with
        | BStr la, BStr lb => Ok (mk_ndarray (n + m :: ra) (BStr (la ++ lb)%list))
        | _, _ => Raise TypeError
        end
      else Raise (ValueError "all the input array dimensions except for the concatenation axis must match exactly")
  | _, _ => Raise (ValueError "zero-dimensional arrays cannot be concatenated")
  end.

(** The dtype NumPy finds for one Python object, and for two dtypes
    together, when it builds an array from a sequence. *)
Definition dtype_of_object (o : Py.object) : dtype :=
  match o with
  | PyNone => DObject
  | PyBool _ => DBool
  | PyInt _ => DInt
  | PyStr _ => DStr
  | PyOther _ _ _ => DObject
  end.

Definition promote (d1 d2 : dtype) : dtype :=
  match d1, d2 with
  | DObject, _ | _, DObject => DObject
  | DStr, _ | _, DStr => DStr
  | DFloat, _ | _, DFloat => DFloat
  | DInt, _ | _, DInt => DInt
  | DBool, DBool => DBool
  end.

(** With no element at all NumPy falls back on float64. *)
Definition common_dtype (l : list Py.object) : dtype :=
  match l with
  | [] => DFloat
  | o :: l' => fold_left (fun d x => promote d (dtype_of_object x)) l' (dtype_of_object o)
  end.

Definition bool_of_object (o : Py.object) : bool :=
  match o with PyBool b => b | _ => false end.

Definition int_of_object (o : Py.object) : Z :=
  match o with
  | PyBool b => if b then 1%Z else 0%Z
  | PyInt z => z
  | _ => 0%Z
  end.

Definition buffer_of_objects (l : list Py.object) : buffer :=
  match common_dtype l with
  | DBool => BBool (map bool_of_object l)
  | DInt => BInt (map int_of_object l)
  | DFloat => BFloat []
  | DStr => BStr (map Py.str l)
  | DObject => BObject l
  end.

(** [np.array(rows)] for a list of tuples, as [fetchall()] returns it.
    Integers are taken to fit int64, as PostgreSQL's integer types do. *)
Definition array_of_rows (rows : list (list Py.object)) : result ndarray :=
  match rows with
  | [] => Ok (mk_ndarray [0] (BFloat []))
  | r0 :: _ =>
      let k := length r0 in
      if forallb (fun r => Nat.eqb (length r) k) rows then
        Ok (mk_ndarray [length rows; k] (buffer_of_objects (concat rows)))
      else
        Raise (ValueError "setting an array element with a sequence. The requested array has an inhomogeneous shape after 1 dimensions.")
  end.

End Np.

Import Np.

(** ** psycopg and the outside world *)

Module Pg.

(** What a cursor holds after a statement ran: the rows of a result
    set, or nothing for a command that returns none. *)
Definition cursor := option (list (list Py.object)).

Inductive outcome :=
| ExecOk (c : cursor)
| ExecError.

(** What reaches the driver, in order. *)
Inductive event :=
| EvConnect (conn_str : string)
| EvExecute (sql : string)
| EvCommit
| EvRollback
| EvClose.

(** [cursor.fetchall()] *)
Definition fetchall (c : cursor) : result (list (list Py.object)) :=
  match c with
  | Some rows => Ok rows
  | None => Raise ProgrammingError
  end.

Definition executed (t : list event) : list string :=
  flat_map (fun e => match e with EvExecute q => [q] | _ => [] end) t.

End Pg.

Import Pg.

(** The libraries and the database the module talks to.  [tabulate a h]
    is [tabulate(a, headers=h, tablefmt="pipe")], taken as a total
    function of the array and the header texts; [pg_connect] tells
    whether [psycopg.connect] succeeds, [pg_execute] what the server
    answers to a statement and what state it is left in. *)
Record Env := mk_env {
  float_str : Z -> string;
  tabulate : ndarray -> list string -> string;
  server : Type;
  pg_connect : string -> server -> bool;
  pg_execute : string -> string -> server -> outcome * server
}.

(** ** The module *)

Module Utility.

Definition nl : string := String (ascii_of_nat 10) EmptyString.
Definition dq : string := String (ascii_of_nat 34) EmptyString.
Definition sp (n : nat) : string := String.concat "" (repeat " " n).

Section WithEnv.
Context (E : Env).

(** The state a call runs in: the server, what was sent to the
    driver so far, and what was printed so far. *)
Record world := mk_world {
  srv : server E;
  trace : list event;
  stdout : string
}.

Definition M (A : Type) : Type := world -> result A * world.

Definition ret {A : Type} (a : A) : M A := fun w => (Ok a, w).
Definition raise {A : Type} (e : exn) : M A := fun w => (Raise e, w).
Definition bind {A B : Type} (m : M A) (k : A -> M B) : M B :=
  fun w =>
    match m w with
    | (Ok a, w') => k a w'
    | (Raise e, w') => (Raise e, w')
    end.
Definition lift {A : Type} (r : result A) : M A := fun w => (r, w).

Notation "x <- m ;; k" := (bind m (fun x => k))
  (at level 61, m at next level, right associativity).

Definition log (ev : event) (w : world) : world :=
  mk_world (srv w) (trace w ++ [ev])%list (stdout w).

(** [with psycopg.connect(conn_str) as conn: body]: the connection
    commits when the block ends normally, rolls back when it ends
    with an exception, and is closed either way. *)
Definition with_connect {A : Type} (conn_str : string) (body : M A) : M A :=
  fun w =>
    let w0 := log (EvConnect conn_str) w in
    if pg_connect E conn_str (srv w) then
      match body w0 with
      | (Ok a, w1) => (Ok a, log EvClose (log EvCommit w1))
      | (Raise e, w1) => (Raise e, log EvClose (log EvRollback w1))
      end
    else (Raise DatabaseError, w0).

(** [conn.execute(sql)] *)
Definition execute (conn_str sql : string) : M cursor :=
  fun w =>
    let (o, s) := pg_execute E conn_str sql (srv w) in
    let w' := log (EvExecute sql) (mk_world s (trace w) (stdout w)) in
    match o with
    | ExecOk c => (Ok c, w')
    | ExecError => (Raise DatabaseError, w')
    end.

(** [print(text)] *)
Definition print (text : string) : M unit :=
  fun w => (Ok tt, mk_world (srv w) (trace w) (stdout w ++ text ++ nl)).

(** The message of the assertion on the rank, shared by the three
    functions that take an array. *)
Definition shape_message (data : ndarray) : string :=
  "Data must be 2-dimensional. Given: " ++ Py.tuple_repr (shape data)
    ++ " (" ++ Py.str_of_nat (ndim data) ++ "-dimensional)".

(** [_prepare_for_insert] (lines 9-37).  [validate_call] only checks
    that the arguments have the annotated types, which the types of
    the parameters say here. *)
Definition _prepare_for_insert (data : ndarray) (string_array : bool) : result string :=
  if negb (Nat.eqb (ndim data) 2) then Raise (AssertionError (shape_message data))
  else
    let quoted :=
      if string_array then
        match radd_str "'" data with
        | Ok d => add_str d "'"
        | Raise e => Raise e
        end
      else Ok data in
    match quoted with
    | Raise e => Raise e
    | Ok data_ =>
        Ok (Py.join ", "
              (map (fun x => "(" ++ Py.join ", " x ++ ")")
                   (rows_str (astype_str (float_str E) data_))))
    end.

(** The f-string of line 70. *)
Definition insert_statement (table insert_values : string) : string :=
  "INSERT INTO " ++ table ++ " VALUES " ++ insert_values.

(** [insert_into_db] (lines 39-71) *)
Definition insert_into_db (conn_str table : string) (data : ndarray)
    (string_array : bool) : M unit :=
  if negb (Nat.eqb (ndim data) 2) then raise (AssertionError (shape_message data))
  else
    insert_values <- lift (_prepare_for_insert data string_array) ;;
    with_connect conn_str
      (_ <- execute conn_str (insert_statement table insert_values) ;;
       ret tt).

(** The f-strings of lines 101, 105, 107 and 114-116. *)
Definition columns_statement (table : string) : string :=
  "SELECT column_name FROM information_schema.columns WHERE table_name = '"
    ++ table ++ "';".

Definition not_exist_message (table : string) : string :=
  "The table '" ++ table ++ "' does not exist".

Definition mismatch_message (ncols ndata : nat) : string :=
  "Number of columns (" ++ Py.str_of_nat ncols
    ++ ") does not match the number of columns in data ("
    ++ Py.str_of_nat ndata ++ ")".

Definition preview_text (table : string) (string_ cols : ndarray) : string :=
  "Insert values into " ++ table ++ ":" ++ nl
    ++ tabulate E string_ (elems_str (float_str E) (buf cols)) ++ nl ++ nl
    ++ "Insertion shape is valid.".

(** [dry_insert_into_db] (lines 75-118).  Only [conn.execute] is
    inside the [with] block; the rows are fetched from the cursor after
    the connection is closed. *)
Definition dry_insert_into_db (conn_str table : string) (data : ndarray) : M unit :=
  if negb (Nat.eqb (ndim data) 2) then raise (AssertionError (shape_message data))
  else
    res <- with_connect conn_str (execute conn_str (columns_statement table)) ;;
    fetched <- lift (fetchall res) ;;
    arr <- lift (array_of_rows fetched) ;;
    let cols := flatten arr in
    if Nat.eqb (len cols) 0 then raise (ValueError (not_exist_message table))
    else if negb (Nat.eqb (len cols) (shape1 data)) then
      raise (ValueError (mismatch_message (len cols) (shape1 data)))
    else
      top <- lift (slice_to 3 (astype_str (float_str E) data)) ;;
      string_ <- lift (concat0 top (full_str [1; len cols] "...")) ;;
      print (preview_text table string_ cols).

(** The statements of [describe_table] (lines 134-143, 153 and
    156-170), with the line breaks and the indentation of the
    triple-quoted literals. *)
Definition schema_statement (table : string) : string :=
  nl ++ sp 12 ++ "SELECT " ++ nl
    ++ sp 15 ++ "column_name, " ++ nl
    ++ sp 15 ++ "data_type," ++ nl
    ++ sp 15 ++ "is_nullable" ++ nl
    ++ sp 12 ++ "FROM" ++ nl
    ++ sp 15 ++ "information_schema.columns" ++ nl
    ++ sp 12 ++ "WHERE" ++ nl
    ++ sp 15 ++ "table_name = '" ++ table ++ "';" ++ nl
    ++ sp 8.

Definition count_statement (table : string) : string :=
  "SELECT COUNT(*) FROM " ++ dq ++ table ++ dq.

Definition boundary_select (table order_column direction : string) : string :=
  sp 12 ++ "(SELECT " ++ nl
    ++ sp 16 ++ "*" ++ nl
    ++ sp 12 ++ "FROM " ++ dq ++ table ++ dq ++ nl
    ++ sp 12 ++ "ORDER BY " ++ dq ++ order_column ++ dq ++ " " ++ direction ++ nl
    ++ sp 12 ++ "LIMIT 1)" ++ nl.

Definition boundary_statement (table order_column : string) : string :=
  nl ++ boundary_select table order_column "ASC"
    ++ sp 8 ++ nl
    ++ sp 12 ++ "UNION ALL" ++ nl
    ++ sp 8 ++ nl
    ++ boundary_select table order_column "DESC"
    ++ sp 8.

(** How an f-string renders a NumPy scalar. *)
Definition scalar_str (x : scalar) : string :=
  match x with
  | SBool b => Py.str_of_bool b
  | SInt z => Py.str_of_int z
  | SFloat bits => float_str E bits
  | SStr s => s
  | SObject o => Py.str o
  end.

(** What [describe_table] has fetched when it composes its report:
    [arr], [cols], [enties_count] and the array that becomes
    [first_last]. *)
Record description := mk_description {
  arr : ndarray;
  cols : ndarray;
  enties_count : scalar;
  first_last_rows : ndarray
}.

Definition schema_headers : list string :=
  ["column_name"; "data_type"; "is_nullable"].

Definition table_info (d : description) : string :=
  tabulate E (arr d) schema_headers.

Definition first_last (d : description) : string :=
  tabulate E (first_last_rows d) (elems_str (float_str E) (buf (cols d))).

(** The three statements of [describe_table], in the order of the
    source; the two calls of [tabulate] have no effect of their own
    and are made in [report]. *)
Definition describe_fetch (conn_str table order_column : string) : M description :=
  res <- execute conn_str (schema_statement table) ;;
  fetched <- lift (fetchall res) ;;
  arr <- lift (array_of_rows fetched) ;;
  cols <- lift (index_last0 arr) ;;
  res <- execute conn_str (count_statement table) ;;
  fetched <- lift (fetchall res) ;;
  counted <- lift (array_of_rows fetched) ;;
  enties_count <- lift (item0 (flatten counted)) ;;
  res <- execute conn_str (boundary_statement table order_column) ;;
  fetched <- lift (fetchall res) ;;
  first_last_rows <- lift (array_of_rows fetched) ;;
  ret (mk_description arr cols enties_count first_last_rows).

(** The f-string of lines 177-183. *)
Definition report (table : string) (d : description) : string :=
  "Table summary: " ++ table ++ nl ++ nl
    ++ table_info d ++ nl ++ nl
    ++ "With " ++ scalar_str (enties_count d) ++ " entiries" ++ nl ++ nl
    ++ "First & last being:" ++ nl
    ++ first_last d.

(** [describe_table] (lines 120-183): the whole body is inside the
    [with] block. *)
Definition describe_table (conn_str table order_column : string) : M string :=
  with_connect conn_str
    (d <- describe_fetch conn_str table order_column ;;
     ret (report table d)).

End WithEnv.

Notation "x <- m ;; k" := (bind _ m (fun x => k))
  (at level 61, m at next level, right associativity).

End Utility.

(** ** The answers of PostgreSQL

    The statements are evaluated by the server, not by the module.
    What the server answers to the statements of [describe_table] and
    [dry_insert_into_db] for a stored table is written down here, over a
    table kept as a list of rows. *)

Module Sql.

Record column := mk_column {
  column_name : string;
  data_type : string;
  is_nullable : string
}.

Record table := mk_table {
  columns : list column;
  rows : list (list Py.object)
}.

(** One row has one cell per column. *)
Definition wf_table (t : table) : bool :=
  forallb (fun r => Nat.eqb (length r) (length (columns t))) (rows t).

(** [SELECT column_name FROM information_schema.columns ...] *)
Definition column_name_rows (t : table) : list (list Py.object) :=
  map (fun c => [PyStr (column_name c)]) (columns t).

(** [SELECT column_name, data_type, is_nullable FROM information_schema.columns ...] *)
Definition schema_rows (t : table) : list (list Py.object) :=
  map (fun c => [PyStr (column_name c); PyStr (data_type c); PyStr (is_nullable c)])
      (columns t).

(** [SELECT COUNT( * ) FROM t] *)
Definition count_rows (t : table) : list (list Py.object) :=
  [[PyInt (Z.of_nat (length (rows t)))]].

Fixpoint column_index (name : string) (cs : list column) : option nat :=
  match cs with
  | [] => None
  | c :: cs' =>
      if String.eqb (column_name c) name then Some 0
      else option_map S (column_index name cs')
  end.

(** The value of column [j] in a row. *)
Definition cell (j : nat) (r : list Py.object) : Py.object := nth j r PyNone.

Fixpoint insert_by (le : Py.object -> Py.object -> bool) (j : nat)
    (r : list Py.object) (l : list (list Py.object)) : list (list Py.object) :=
  match l with
  | [] => [r]
  | x :: l' => if le (cell j r) (cell j x) then r :: l else x :: insert_by le j r l'
  end.

(** [ORDER BY] on column [j], for an ordering [le] of its values. *)
Definition order_by (le : Py.object -> Py.object -> bool) (j : nat)
    (l : list (list Py.object)) : list (list Py.object) :=
  fold_right (insert_by le j) [] l.

(** [(SELECT * FROM t ORDER BY c ASC LIMIT 1) UNION ALL
     (SELECT * FROM t ORDER BY c DESC LIMIT 1)], where [le] is the
    ascending order of the values of the column. *)
Definition boundary_rows (le : Py.object -> Py.object -> bool) (j : nat)
    (t : table) : list (list Py.object) :=
  (firstn 1 (order_by le j (rows t))
     ++ firstn 1 (order_by (fun a b => le b a) j (rows t)))%list.

(** The order of an integer column. *)
Definition int_rank (o : Py.object) : Z :=
  match o with
  | PyInt z => z
  | _ => 0%Z
  end.

Definition int_le (a b : Py.object) : bool := Z.leb (int_rank a) (int_rank b).

Definition int_column (j : nat) (t : table) : bool :=
  forallb (fun r => match cell j r with PyInt _ => true | _ => false end) (rows t).

End Sql.

(** ** Vocabulary of the properties *)

Module Props.

(** The data is string-like: a string array, or an object array that
    holds Python strings only. *)
Definition string_like (a : ndarray) : bool :=
  match buf a with
  | BStr _ => true
  | BObject l => forallb Py.is_str l
  | _ => false
  end.

(** The value of ["'" + o + "'"] for one element of an object array,
    [None] when one of the two additions is not supported. *)
Definition quote_object (o : Py.object) : option Py.object :=
  match Py.radd "'" o with
  | Some o' => Py.add o' "'"
  | None => None
  end.

Definition quotable (o : Py.object) : bool :=
  match quote_object o with Some _ => true | None => false end.

(** The arrays that take the quotes: the string arrays, and the object
    arrays all of whose elements support both additions. *)
Definition takes_quotes (a : ndarray) : bool :=
  match buf a with
  | BStr _ => true
  | BObject l => forallb quotable l
  | _ => false
  end.

(** The text of an element after the quotes were added to it. *)
Definition quoted_text (o : Py.object) : string :=
  match quote_object o with Some q => Py.str q | None => "" end.

(** The cells of the values-list of an array that takes the quotes. *)
Definition quoted_cells (a : ndarray) : list string :=
  match buf a with
  | BStr l => map (fun x => "'" ++ x ++ "'") l
  | BObject l => map quoted_text l
  | _ => []
  end.

(** A rendered value, in a quote pair when the string flag is on. *)
Definition wrap (string_array : bool) (s : string) : string :=
  if string_array then "'" ++ s ++ "'" else s.

(** The text of one row: a parenthesized, comma-joined group. *)
Definition group (cells : list string) : string := "(" ++ Py.join ", " cells ++ ")".

(** The text of a values-list made of the given groups of cells. *)
Definition values_list (groups : list (list string)) : string :=
  Py.join ", " (map group groups).

(** Row [x] may come before row [y] under [ORDER BY] on column [j]. *)
Definition before (le : Py.object -> Py.object -> bool) (j : nat)
    (x y : list Py.object) : Prop :=
  le (Sql.cell j x) (Sql.cell j y) = true.

(** The cells of the schema rows of a table, row after row. *)
Definition schema_cells (t : Sql.table) : list string :=
  concat (map (fun c => [Sql.column_name c; Sql.data_type c; Sql.is_nullable c])
              (Sql.columns t)).

Section WithEnv.
Context (E : Env).

(** The server stores [t] under the name [table]: it answers the
    reading statements of the module with the rows of [Sql], and
    reading leaves it as it is.  [j] is the position of the order
    column and [le] the ascending order of its values. *)
Definition serves (conn_str : string) (s : server E) (table order_column : string)
    (t : Sql.table) (j : nat) (le : Py.object -> Py.object -> bool) : Prop :=
  pg_connect E conn_str s = true /\
  Sql.column_index order_column (Sql.columns t) = Some j /\
  pg_execute E conn_str (Utility.schema_statement table) s
    = (ExecOk (Some (Sql.schema_rows t)), s) /\
  pg_execute E conn_str (Utility.count_statement table) s
    = (ExecOk (Some (Sql.count_rows t)), s) /\
  pg_execute E conn_str (Utility.boundary_statement table order_column) s
    = (ExecOk (Some (Sql.boundary_rows le j t)), s).

(** The part of [dry_insert_into_db] that follows the [with] block
    (lines 102-118), as a function of the cursor. *)
Definition after_query (table : string) (data : ndarray) (res : cursor)
    : Utility.M E unit :=
  Utility.bind E (Utility.lift E (fetchall res)) (fun fetched =>
  Utility.bind E (Utility.lift E (array_of_rows fetched)) (fun arr =>
    let cols := flatten arr in
    if Nat.eqb (len cols) 0
    then Utility.raise E (ValueError (Utility.not_exist_message table))
    else if negb (Nat.eqb (len cols) (shape1 data)) then
      Utility.raise E (ValueError (Utility.mismatch_message (len cols) (shape1 data)))
    else
      Utility.bind E (Utility.lift E (slice_to 3 (astype_str (float_str E) data)))
        (fun top =>
      Utility.bind E (Utility.lift E (concat0 top (full_str [1; len cols] "...")))
        (fun string_ =>
      Utility.print E (Utility.preview_text E table string_ cols))))).
End WithEnv.

End Props.

(** ** A small concrete environment

    A stand-in for the libraries and the server, to run the module on
    concrete inputs: a database is a list of named tables, reachable
    under one connection string. *)

Module Demo.

Definition database := list (string * Sql.table).

Definition conn_str : string := "dbname=bitcoin".

Definition pipe_row (cells : list string) : string :=
  "| " ++ Py.join " | " cells ++ " |" ++ Utility.nl.

(** One line for the headers, one line per row of a rank-2 array. *)
Definition tabulate (a : ndarray) (headers : list string) : string :=
  pipe_row headers
    ++ String.concat "" (map pipe_row (rows_str (astype_str (fun _ => "0.0") a))).

(** Ordering is answered for integer columns only. *)
Definition boundary_answer (sql name : string) (t : Sql.table) : option outcome :=
  match find (fun c => String.eqb sql (Utility.boundary_statement name (Sql.column_name c)))
             (Sql.columns t) with
  | Some c =>
      match Sql.column_index (Sql.column_name c) (Sql.columns t) with
      | Some j =>
          if Sql.int_column j t
          then Some (ExecOk (Some (Sql.boundary_rows Sql.int_le j t)))
          else None
      | None => None
      end
  | None => None
  end.

Fixpoint answer (db : database) (sql : string) : option outcome :=
  match db with
  | [] => None
  | (name, t) :: db' =>
      if String.eqb sql (Utility.columns_statement name)
      then Some (ExecOk (Some (Sql.column_name_rows t)))
      else if String.eqb sql (Utility.schema_statement name)
      then Some (ExecOk (Some (Sql.schema_rows t)))
      else if String.eqb sql (Utility.count_statement name)
      then Some (ExecOk (Some (Sql.count_rows t)))
      else if String.prefix (Utility.insert_statement name "") sql
      then Some (ExecOk None)
      else match boundary_answer sql name t with
           | Some o => Some o
           | None => answer db' sql
           end
  end.

(** The text of a statement up to the table name, [k] characters
    before its end. *)
Definition before_name (statement : string) (k : nat) : string :=
  substring 0 (String.length statement - k) statement.

(** A metadata query about a table that is not stored has no rows;
    any other statement about such a table is an error. *)
Definition execute (_ sql : string) (db : database) : outcome * database :=
  match answer db sql with
  | Some o => (o, db)
  | None =>
      if String.prefix (before_name (Utility.columns_statement "") 2) sql
         || String.prefix (before_name (Utility.schema_statement "") 11) sql
      then (ExecOk (Some []), db)
      else (ExecError, db)
  end.

Definition env : Env :=
  mk_env (fun _ => "0.0") tabulate database
         (fun c _ => String.eqb c conn_str) execute.

Definition blocks : Sql.table :=
  Sql.mk_table
    [Sql.mk_column "height" "integer" "NO"; Sql.mk_column "hash" "text" "YES"]
    [[PyInt 2; PyStr "00b"]; [PyInt 0; PyStr "00a"]; [PyInt 1; PyNone]].

Definition mempool : Sql.table :=
  Sql.mk_table
    [Sql.mk_column "height" "integer" "NO"; Sql.mk_column "hash" "text" "YES"] [].

Definition db : database := [("blocks", blocks); ("mempool", mempool)].

Definition world0 : Utility.world env := Utility.mk_world env db [] "".

Definition ints4x2 : ndarray :=
  mk_ndarray [4; 2] (BInt [1; 2; 3; 4; 5; 6; 7; 8]%Z).
Definition strs1x2 : ndarray := mk_ndarray [1; 2] (BStr ["a"; "b"]).
Definition objs1x2 : ndarray := mk_ndarray [1; 2] (BObject [PyStr "a"; PyStr "b"]).
Definition ints1x2 : ndarray := mk_ndarray [1; 2] (BInt [1; 2]%Z).

(** A second database, with a table of one row. *)
Definition genesis : Sql.table :=
  Sql.mk_table
    [Sql.mk_column "height" "integer" "NO"; Sql.mk_column "hash" "text" "YES"]
    [[PyInt 0; PyStr "00a"]].

Definition db1 : database := [("genesis", genesis)].

Definition world1 : Utility.world env := Utility.mk_world env db1 [] "".

Definition strs2x2 : ndarray := mk_ndarray [2; 2] (BStr ["a"; "b"; "c"; "d"]).

(** Three kinds of further objects, described [depth] additions deep:
    a [collections.UserString], whose additions give a [UserString] of
    the concatenated text; [pandas.NA], whose additions give [pandas.NA]
    again; and a [decimal.Decimal], which supports neither addition
    with a string. *)
Fixpoint user_string (depth : nat) (s : string) : Py.object :=
  match depth with
  | O => PyOther s (fun _ => None) (fun _ => None)
  | S d => PyOther s (fun l => Some (user_string d (l ++ s)))
                     (fun r => Some (user_string d (s ++ r)))
  end.

Fixpoint pandas_na (depth : nat) : Py.object :=
  match depth with
  | O => PyOther "<NA>" (fun _ => None) (fun _ => None)
  | S d => PyOther "<NA>" (fun _ => Some (pandas_na d)) (fun _ => Some (pandas_na d))
  end.

Definition decimal (text : string) : Py.object :=
  PyOther text (fun _ => None) (fun _ => None).

Definition mixed1x3 : ndarray :=
  mk_ndarray [1; 3] (BObject [user_string 2 "a"; pandas_na 2; PyStr "b"]).
Definition decimals1x2 : ndarray :=
  mk_ndarray [1; 2] (BObject [PyStr "a"; decimal "1.5"]).

End Demo.


(** ** Properties *)

Module Facts.

Import Utility Props.

Lemma append_assoc (a b c : string) : (a ++ b) ++ c = a ++ b ++ c.
Proof. induction a as [|x a IH]; simpl; congruence. Qed.

(** *** Rows of a row-major buffer *)

Lemma chunks_length {A : Type} (r c : nat) (l : list A) :
  length (chunks r c l) = r.
Proof.
  revert l; induction r as [|r IH]; intros l; simpl; [reflexivity|].
  now rewrite IH.
Qed.

Lemma chunks_widths {A : Type} (r c : nat) (l : list A) :
  length l = r * c -> Forall (fun g => length g = c) (chunks r c l).
Proof.
  revert l; induction r as [|r IH]; intros l Hl; simpl; constructor.
  - rewrite length_firstn. simpl in Hl. lia.
  - apply IH. rewrite length_skipn. simpl in Hl. lia.
Qed.

Lemma chunks_concat {A : Type} (r c : nat) (l : list A) :
  length l = r * c -> concat (chunks r c l) = l.
Proof.
  revert l; induction r as [|r IH]; intros l Hl; simpl.
  - simpl in Hl. now destruct l.
  - rewrite IH.
    + apply firstn_skipn.
    + rewrite length_skipn. simpl in Hl. lia.
Qed.

Lemma chunks_firstn {A : Type} (k r c : nat) (l : list A) :
  chunks (Nat.min r k) c (firstn (Nat.min r k * c) l) = firstn k (chunks r c l).
Proof.
  revert r l; induction k as [|k IH]; intros r l.
  - rewrite Nat.min_0_r. reflexivity.
  - destruct r as [|r]; [reflexivity|].
    rewrite <- Nat.succ_min_distr. simpl.
    rewrite firstn_firstn, skipn_firstn_comm.
    replace (Nat.min c (c + Nat.min r k * c)) with c by lia.
    replace (c + Nat.min r k * c - c) with (Nat.min r k * c) by lia.
    now rewrite IH.
Qed.

Lemma chunks_app {A : Type} (r r' c : nat) (l l' : list A) :
  length l = r * c ->
  chunks (r + r') c (l ++ l') = (chunks r c l ++ chunks r' c l')%list.
Proof.
  revert l; induction r as [|r IH]; intros l Hl; simpl in *.
  - now destruct l.
  - rewrite firstn_app, skipn_app.
    assert (Hc : c <= length l) by lia.
    replace (c - length l) with 0 by lia. simpl.
    rewrite app_nil_r. f_equal.
    apply IH. rewrite length_skipn. lia.
Qed.

Lemma chunks_one {A : Type} (c : nat) (l : list A) :
  length l = c -> chunks 1 c l = [l].
Proof. intros <-. simpl. now rewrite firstn_all. Qed.

(** *** Quoting an array *)

(** The two additions over an object array succeed together exactly
    when every element supports both, and then leave the quoted
    elements. *)
Lemma quote_objects (l : list Py.object) :
  match radd_objects "'" l with
  | Ok l1 =>
      match add_objects l1 "'" with
      | Ok l2 => Ok (map Py.str l2)
      | Raise e => Raise e
      end
  | Raise e => Raise e
  end
  = if forallb quotable l then Ok (map quoted_text l) else Raise TypeError.
Proof.
  induction l as [|o l IH]; [reflexivity|].
  cbn [radd_objects forallb map]. unfold quotable at 1, quoted_text at 1, quote_object.
  destruct (Py.radd "'" o) as [o1|]; [|reflexivity].
  destruct (radd_objects "'" l) as [l1|e].
  - cbn [add_objects].
    destruct (Py.add o1 "'") as [o2|]; [|reflexivity].
    destruct (add_objects l1 "'") as [l2|e2];
      destruct (forallb quotable l); cbn [andb map]; congruence.
  - destruct (Py.add o1 "'") as [o2|];
      destruct (forallb quotable l); cbn [andb]; congruence.
Qed.

Lemma quotable_strings (l : list Py.object) :
  forallb Py.is_str l = true ->
  forallb quotable l = true /\
  map quoted_text l = map (fun o => "'" ++ Py.str o ++ "'") l.
Proof.
  induction l as [|o l IH]; [now split|].
  intros H. simpl in H. destruct o; try discriminate. simpl in H.
  destruct (IH H) as [H1 H2]. split.
  - cbn [forallb]. rewrite H1. reflexivity.
  - cbn [map]. rewrite H2. f_equal.
Qed.

Lemma not_quotable (l : list Py.object) (o : Py.object) :
  In o l -> quotable o = false -> forallb quotable l = false.
Proof.
  intros Hin Hq.
  destruct (forallb quotable l) eqn:Hall; [|reflexivity].
  rewrite forallb_forall in Hall. rewrite (Hall o Hin) in Hq. discriminate.
Qed.

(** *** Ordering the rows of a table *)

Section Ordering.
Variable le : Py.object -> Py.object -> bool.
Variable j : nat.
Hypothesis le_total : forall a b, le a b = true \/ le b a = true.
Hypothesis le_trans : forall a b c, le a b = true -> le b c = true -> le a c = true.

Lemma in_insert_by (r x : list Py.object) (l : list (list Py.object)) :
  In x (Sql.insert_by le j r l) <-> x = r \/ In x l.
Proof.
  induction l as [|y l IH]; simpl.
  - intuition.
  - destruct (le (Sql.cell j r) (Sql.cell j y)); simpl; [intuition|].
    rewrite IH. intuition.
Qed.

Lemma in_order_by (x : list Py.object) (l : list (list Py.object)) :
  In x (Sql.order_by le j l) <-> In x l.
Proof.
  induction l as [|y l IH]; simpl; [reflexivity|].
  unfold Sql.order_by in *. simpl. rewrite in_insert_by, IH. intuition.
Qed.

Lemma insert_by_sorted (r : list Py.object) (l : list (list Py.object)) :
  Sorted.StronglySorted (before le j) l ->
  Sorted.StronglySorted (before le j) (Sql.insert_by le j r l).
Proof.
  induction 1 as [|y l Hl IH Hy]; simpl.
  - constructor; constructor.
  - destruct (le (Sql.cell j r) (Sql.cell j y)) eqn:Hle.
    + constructor; [now constructor|].
      constructor; [exact Hle|].
      rewrite Forall_forall in *. intros z Hz.
      unfold before. eapply le_trans; [exact Hle|]. now apply Hy.
    + constructor; [exact IH|].
      rewrite Forall_forall in *. intros z Hz.
      apply in_insert_by in Hz. destruct Hz as [->|Hz]; [|now apply Hy].
      unfold before. destruct (le_total (Sql.cell j r) (Sql.cell j y)); congruence.
Qed.

Lemma order_by_sorted (l : list (list Py.object)) :
  Sorted.StronglySorted (before le j) (Sql.order_by le j l).
Proof.
  induction l as [|y l IH]; [constructor|].
  unfold Sql.order_by in *. simpl. now apply insert_by_sorted.
Qed.

(** The first row after [ORDER BY] comes before every row. *)
Lemma order_by_first (l : list (list Py.object)) :
  l <> [] ->
  exists h, firstn 1 (Sql.order_by le j l) = [h] /\ In h l /\
            forall x, In x l -> le (Sql.cell j h) (Sql.cell j x) = true.
Proof.
  intros Hne.
  pose proof (order_by_sorted l) as Hs.
  pose proof (in_order_by) as Hin.
  destruct (Sql.order_by le j l) as [|h t] eqn:Ho.
  - destruct l as [|y l]; [congruence|].
    specialize (Hin y (y :: l)). rewrite Ho in Hin. simpl in Hin.
    exfalso. apply Hin. now left.
  - exists h. split; [reflexivity|]. split.
    + apply (Hin h l). rewrite Ho. now left.
    + intros x Hx. apply (Hin x l) in Hx. rewrite Ho in Hx.
      destruct Hx as [<-|Hx].
      * destruct (le_total (Sql.cell j h) (Sql.cell j h)); assumption.
      * inversion Hs as [|? ? _ Hall]; subst.
        rewrite Forall_forall in Hall. now apply Hall.
Qed.

End Ordering.

(** With at least one row, the boundary rows are a least and a
    greatest row of the table, in this order. *)
Lemma boundary_rows_extremes (le : Py.object -> Py.object -> bool) (j : nat)
    (t : Sql.table) :
  (forall a b, le a b = true \/ le b a = true) ->
  (forall a b c, le a b = true -> le b c = true -> le a c = true) ->
  Sql.rows t <> [] ->
  exists rmin rmax,
    Sql.boundary_rows le j t = [rmin; rmax] /\
    In rmin (Sql.rows t) /\ In rmax (Sql.rows t) /\
    forall x, In x (Sql.rows t) ->
              le (Sql.cell j rmin) (Sql.cell j x) = true /\
              le (Sql.cell j x) (Sql.cell j rmax) = true.
Proof.
  intros Htotal Htrans Hne.
  destruct (order_by_first le j Htotal Htrans (Sql.rows t) Hne)
    as [rmin [Hmin [Imin Lmin]]].
  destruct (order_by_first (fun a b => le b a) j) with (l := Sql.rows t)
    as [rmax [Hmax [Imax Lmax]]].
  - intros a b. destruct (Htotal a b); auto.
  - intros a b c Hab Hbc. now apply (Htrans c b a).
  - exact Hne.
  - exists rmin, rmax. unfold Sql.boundary_rows. rewrite Hmin, Hmax.
    repeat split; auto.
Qed.

Lemma cell_determines_row (j : nat) (l : list (list Py.object)) (x y : list Py.object) :
  NoDup (map (Sql.cell j) l) -> In x l -> In y l ->
  Sql.cell j x = Sql.cell j y -> x = y.
Proof.
  induction l as [|z l IH]; simpl; [tauto|].
  intros Hnd Hx Hy Hk. inversion Hnd as [|? ? Hnotin Hnd']; subst.
  destruct Hx as [->|Hx], Hy as [->|Hy]; auto.
  - exfalso. apply Hnotin. rewrite Hk. now apply in_map.
  - exfalso. apply Hnotin. rewrite <- Hk. now apply in_map.
Qed.

Section WithEnv.
Context (E : Env).

(** The formatter on an array of rank 2 with the flag on. *)
Lemma formatter_flag_on (data : ndarray) (r c : nat) :
  shape data = [r; c] ->
  _prepare_for_insert E data true =
    if takes_quotes data
    then Ok (values_list (chunks r c (quoted_cells data)))
    else Raise TypeError.
Proof.
  intros Hs. unfold _prepare_for_insert, ndim. rewrite Hs.
  cbn [length Nat.eqb negb].
  unfold radd_str, add_str, takes_quotes, quoted_cells.
  destruct (buf data) as [l|l|l|l|l] eqn:Hb; try reflexivity.
  - cbn [buf shape]. unfold rows_str, astype_str. cbn [buf shape elems_str].
    rewrite Hs. unfold values_list. do 3 f_equal.
    rewrite !map_map. reflexivity.
  - pose proof (quote_objects l) as Hq.
    destruct (radd_objects "'" l) as [l1|e]; cbn [buf shape].
    + destruct (add_objects l1 "'") as [l2|e2].
      * destruct (forallb quotable l); [|discriminate].
        injection Hq as Hq.
        unfold rows_str, astype_str. cbn [buf shape elems_str].
        rewrite Hs, Hq. reflexivity.
      * destruct (forallb quotable l); congruence.
    + destruct (forallb quotable l); congruence.
Qed.

(** The formatter on an array of rank 2, in closed form, with the flag
    off or string-like data. *)
Lemma formatter_closed_form (data : ndarray) (r c : nat) (flag : bool) :
  shape data = [r; c] ->
  negb flag || string_like data = true ->
  _prepare_for_insert E data flag =
    Ok (values_list (chunks r c (map (wrap flag) (elems_str (float_str E) (buf data))))).
Proof.
  intros Hs Hok. destruct flag; cbn [negb orb] in Hok.
  - rewrite (formatter_flag_on data r c Hs).
    unfold string_like in Hok. unfold takes_quotes, quoted_cells.
    destruct (buf data) as [l|l|l|l|l] eqn:Hb; try discriminate.
    + reflexivity.
    + destruct (quotable_strings l Hok) as [H1 H2].
      rewrite H1, H2. cbn [elems_str]. now rewrite map_map.
  - unfold _prepare_for_insert, ndim. rewrite Hs.
    cbn [length Nat.eqb negb].
    unfold rows_str, astype_str. cbn [buf shape]. rewrite Hs.
    unfold values_list. do 3 f_equal. now rewrite map_id.
Qed.

Lemma length_elems_str (b : buffer) :
  length (elems_str (float_str E) b) = buf_size b.
Proof. destruct b; simpl; now rewrite ?length_map. Qed.

(** C3 (amended): for a 2-dimensional array with [r] rows and [c]
    columns, and with the string flag off or string-like data, the
    formatter returns the comma-joined text of exactly [r]
    parenthesized groups of exactly [c] comma-joined cells each; the
    cells are the stringified elements in order, each in a single
    quote pair when the flag is on and as they are when it is off. *)
Theorem prepare_for_insert_groups (data : ndarray) (r c : nat) (flag : bool) :
  wf data = true ->
  shape data = [r; c] ->
  negb flag || string_like data = true ->
  exists groups : list (list string),
    _prepare_for_insert E data flag = Ok (Py.join ", " (map group groups)) /\
    length groups = r /\
    Forall (fun g => length g = c) groups /\
    concat groups = map (wrap flag) (elems_str (float_str E) (buf data)).
Proof.
  intros Hwf Hs Hok.
  assert (Hlen : length (map (wrap flag) (elems_str (float_str E) (buf data))) = r * c).
  { rewrite length_map, length_elems_str.
    unfold wf in Hwf. apply Nat.eqb_eq in Hwf. rewrite Hwf, Hs. simpl. lia. }
  exists (chunks r c (map (wrap flag) (elems_str (float_str E) (buf data)))).
  rewrite (formatter_closed_form _ _ _ _ Hs Hok).
  repeat split.
  - apply chunks_length.
  - now apply chunks_widths.
  - now apply chunks_concat.
Qed.

(** C4: with the flag off, [[1,2],[3,4],[5,6],[7,8]] is formatted as
    "(1, 2), (3, 4), (5, 6), (7, 8)"; with the flag on, [["a","b"]]
    is formatted as "('a', 'b')". *)
Theorem prepare_for_insert_examples :
  _prepare_for_insert E (mk_ndarray [4; 2] (BInt [1; 2; 3; 4; 5; 6; 7; 8]%Z)) false
    = Ok "(1, 2), (3, 4), (5, 6), (7, 8)" /\
  _prepare_for_insert E (mk_ndarray [1; 2] (BStr ["a"; "b"])) true
    = Ok "('a', 'b')".
Proof. split; reflexivity. Qed.

(** C5: for an array whose rank is not 2, the formatter fails with
    the shape assertion and returns no string. *)
Theorem prepare_for_insert_rank (data : ndarray) (flag : bool) :
  ndim data <> 2 ->
  _prepare_for_insert E data flag = Raise (AssertionError (shape_message data)).
Proof.
  intros H. unfold _prepare_for_insert.
  apply Nat.eqb_neq in H. now rewrite H.
Qed.

(** C10 (amended): with the string flag on the quotes are added to
    the array itself, before it is stringified.  On a 2-dimensional
    array the call returns the quoted values-list exactly when the
    array takes the quotes: every string array does, and an object
    array does when each of its elements supports Python's [+] with
    a string on either side; Python strings do, [None], a bool and
    an int do not.  On every other array the call ends with a type
    error: on every array of another dtype, such as an integer array,
    and on an object array with an element that does not support the
    addition.  For string-like data the cells of the values-list are
    the stringified elements, each in a single quote pair. *)
Theorem prepare_for_insert_flag_on (data : ndarray) (r c : nat) :
  shape data = [r; c] ->
  _prepare_for_insert E data true =
    (if takes_quotes data
     then Ok (values_list (chunks r c (quoted_cells data)))
     else Raise TypeError) /\
  (string_like data = true ->
   takes_quotes data = true /\
   quoted_cells data = map (wrap true) (elems_str (float_str E) (buf data))) /\
  (dtype_of data <> DStr -> dtype_of data <> DObject -> takes_quotes data = false) /\
  (forall l o,
     buf data = BObject l -> In o l ->
     Py.radd "'" o = None \/ (exists o', Py.radd "'" o = Some o' /\ Py.add o' "'" = None) ->
     takes_quotes data = false) /\
  (forall l o,
     buf data = BObject l -> In o l ->
     o = PyNone \/ (exists b, o = PyBool b) \/ (exists z, o = PyInt z) ->
     takes_quotes data = false).
Proof.
  intros Hs. split; [exact (formatter_flag_on data r c Hs)|].
  split; [|split; [|split]].
  - unfold string_like, takes_quotes, quoted_cells.
    destruct (buf data) as [l|l|l|l|l]; try discriminate.
    + intros _. split; reflexivity.
    + intros Hstr. destruct (quotable_strings l Hstr) as [H1 H2].
      split; [exact H1|]. rewrite H2. cbn [elems_str]. now rewrite map_map.
  - unfold dtype_of, takes_quotes.
    destruct (buf data); intros H1 H2; try reflexivity; congruence.
  - intros l o Hb Hin Hfail. unfold takes_quotes. rewrite Hb.
    apply (not_quotable l o Hin). unfold quotable, quote_object.
    destruct Hfail as [H|[o' [H1 H2]]]; [now rewrite H|now rewrite H1, H2].
  - intros l o Hb Hin Ho. unfold takes_quotes. rewrite Hb.
    apply (not_quotable l o Hin).
    destruct Ho as [->|[[b ->]|[z ->]]]; reflexivity.
Qed.


(** *** Runs against the database *)

Lemma formatter_ok_rank (data : ndarray) (flag : bool) (values : string) :
  _prepare_for_insert E data flag = Ok values -> ndim data = 2.
Proof.
  unfold _prepare_for_insert.
  destruct (Nat.eqb (ndim data) 2) eqn:H; [|discriminate].
  intros _. now apply Nat.eqb_eq.
Qed.

(** When the formatter raises, the insert executor ends with the
    same exception and the world is as it was. *)
Lemma insert_into_db_formatter_raises (conn_str table : string) (data : ndarray)
    (flag : bool) (e : exn) (w : world E) :
  _prepare_for_insert E data flag = Raise e ->
  insert_into_db E conn_str table data flag w = (Raise e, w).
Proof.
  intros H. unfold insert_into_db.
  destruct (Nat.eqb (ndim data) 2) eqn:Hr; cbn [negb].
  - unfold bind, lift. now rewrite H.
  - unfold _prepare_for_insert in H. rewrite Hr in H. cbn [negb] in H.
    unfold raise. congruence.
Qed.

Lemma executed_app (t t' : list event) :
  executed (t ++ t') = (executed t ++ executed t')%list.
Proof. apply flat_map_app. Qed.

(** C7: for an array whose rank is not 2, the insert executor and
    the dry-run validator both end with the shape assertion and
    leave the world untouched: nothing is added to the trace, so no
    connection was opened and no statement issued. *)
Theorem rank_rejected_before_database (conn_str table : string) (data : ndarray)
    (flag : bool) (w : world E) :
  ndim data <> 2 ->
  insert_into_db E conn_str table data flag w
    = (Raise (AssertionError (shape_message data)), w) /\
  dry_insert_into_db E conn_str table data w
    = (Raise (AssertionError (shape_message data)), w).
Proof.
  intros H. apply Nat.eqb_neq in H.
  unfold insert_into_db, dry_insert_into_db. rewrite H. now split.
Qed.

(** The insert executor once the values-list is built and the
    connection is open. *)
Lemma insert_into_db_run (conn_str table : string) (data : ndarray)
    (flag : bool) (values : string) (w : world E) :
  _prepare_for_insert E data flag = Ok values ->
  pg_connect E conn_str (srv E w) = true ->
  insert_into_db E conn_str table data flag w =
    match pg_execute E conn_str (insert_statement table values) (srv E w) with
    | (ExecOk _, s') =>
        (Ok tt,
         mk_world E s'
           (trace E w ++ [EvConnect conn_str;
                          EvExecute (insert_statement table values);
                          EvCommit; EvClose])%list
           (stdout E w))
    | (ExecError, s') =>
        (Raise DatabaseError,
         mk_world E s'
           (trace E w ++ [EvConnect conn_str;
                          EvExecute (insert_statement table values);
                          EvRollback; EvClose])%list
           (stdout E w))
    end.
Proof.
  intros Hv Hc.
  assert (Hr := formatter_ok_rank _ _ _ Hv).
  apply Nat.eqb_eq in Hr.
  unfold insert_into_db. rewrite Hr. cbn [negb].
  unfold bind at 1. unfold lift. rewrite Hv.
  unfold with_connect. rewrite Hc.
  unfold bind, execute, ret. cbn [srv log trace stdout].
  destruct (pg_execute E conn_str _ (srv E w)) as [o s'].
  destruct o as [cur|]; unfold log; cbn [trace srv stdout];
    rewrite <- !app_assoc; reflexivity.
Qed.

(** C6 (amended): when the formatter returns a values-list for the
    array and the flag, and the connection opens, the insert
    executor issues exactly one statement on that connection, whose
    text is "INSERT INTO ", the table name, " VALUES " and that
    values-list. *)
Theorem insert_into_db_one_statement (conn_str table : string) (data : ndarray)
    (flag : bool) (values : string) (w : world E) :
  _prepare_for_insert E data flag = Ok values ->
  pg_connect E conn_str (srv E w) = true ->
  executed (trace E (snd (insert_into_db E conn_str table data flag w)))
    = (executed (trace E w)
         ++ [("INSERT INTO " ++ table ++ " VALUES " ++ values)%string])%list /\
  exists fin,
    trace E (snd (insert_into_db E conn_str table data flag w))
      = (trace E w
           ++ [EvConnect conn_str;
               EvExecute ("INSERT INTO " ++ table ++ " VALUES " ++ values)%string;
               fin; EvClose])%list.
Proof.
  intros Hv Hc.
  rewrite (insert_into_db_run _ table _ _ _ _ Hv Hc).
  unfold insert_statement.
  destruct (pg_execute E conn_str _ (srv E w)) as [o s'].
  destruct o as [cur|]; cbn [snd trace].
  - split; [|now exists EvCommit].
    rewrite executed_app. reflexivity.
  - split; [|now exists EvRollback].
    rewrite executed_app. reflexivity.
Qed.

(** *** What NumPy makes of the fetched rows *)

Lemma concat_singletons {A B : Type} (f : A -> B) (l : list A) :
  concat (map (fun x => [f x]) l) = map f l.
Proof. induction l; simpl; congruence. Qed.

Lemma common_dtype_strings (o : Py.object) (l : list Py.object) :
  forallb Py.is_str (o :: l) = true -> common_dtype (o :: l) = DStr.
Proof.
  simpl. destruct o; try discriminate. simpl.
  induction l as [|x l IH]; simpl; [reflexivity|].
  destruct x; try discriminate. simpl. exact IH.
Qed.

Lemma buffer_of_strings (l : list Py.object) :
  l <> [] -> forallb Py.is_str l = true -> buffer_of_objects l = BStr (map Py.str l).
Proof.
  intros Hne Hs. destruct l as [|o l]; [congruence|].
  unfold buffer_of_objects. now rewrite (common_dtype_strings _ _ Hs).
Qed.

Lemma array_of_column_names (names : list string) :
  names <> [] ->
  array_of_rows (map (fun n => [PyStr n]) names)
    = Ok (mk_ndarray [length names; 1] (BStr names)).
Proof.
  intros Hne. unfold array_of_rows.
  destruct names as [|n names]; [congruence|].
  cbn [map length].
  replace (forallb _ _) with true.
  2:{ symmetry. apply forallb_forall. intros x Hx.
      change ([PyStr n] :: map (fun n0 => [PyStr n0]) names)
        with (map (fun n0 => [PyStr n0]) (n :: names)) in Hx.
      apply in_map_iff in Hx. destruct Hx as [y [<- _]]. reflexivity. }
  change ([PyStr n] :: map (fun n0 => [PyStr n0]) names)
    with (map (fun n0 => [PyStr n0]) (n :: names)).
  rewrite concat_singletons, buffer_of_strings.
  - rewrite map_map. cbn [Py.str]. rewrite map_id, length_map. reflexivity.
  - discriminate.
  - apply forallb_forall. intros x Hx. apply in_map_iff in Hx.
    destruct Hx as [y [<- _]]. reflexivity.
Qed.

(** The dry run up to the point where the column names are known. *)
Lemma dry_insert_after_query (conn_str table : string) (data : ndarray)
    (fetched : list (list Py.object)) (s' : server E) (w : world E) :
  ndim data = 2 ->
  pg_connect E conn_str (srv E w) = true ->
  pg_execute E conn_str (columns_statement table) (srv E w)
    = (ExecOk (Some fetched), s') ->
  dry_insert_into_db E conn_str table data w =
    (arr <- lift E (array_of_rows fetched) ;;
     let cols := flatten arr in
     if Nat.eqb (len cols) 0 then raise E (ValueError (not_exist_message table))
     else if negb (Nat.eqb (len cols) (shape1 data)) then
       raise E (ValueError (mismatch_message (len cols) (shape1 data)))
     else
       top <- lift E (slice_to 3 (astype_str (float_str E) data)) ;;
       string_ <- lift E (concat0 top (full_str [1; len cols] "...")) ;;
       print E (preview_text E table string_ cols))
    (mk_world E s'
       (trace E w ++ [EvConnect conn_str; EvExecute (columns_statement table);
                      EvCommit; EvClose])%list
       (stdout E w)).
Proof.
  intros Hr Hc Hq. apply Nat.eqb_eq in Hr.
  unfold dry_insert_into_db. rewrite Hr. cbn [negb].
  unfold bind at 1. unfold with_connect. rewrite Hc.
  unfold execute, log. cbn [srv trace stdout]. rewrite Hq.
  cbn [srv trace stdout]. rewrite <- !app_assoc. cbn [app].
  unfold bind at 1. unfold lift at 1. cbn [fetchall]. reflexivity.
Qed.

(** With no row fetched, the dry run reports a table that does not
    exist, whatever the shape of the array. *)
Lemma dry_insert_no_columns (conn_str table : string) (data : ndarray)
    (s' : server E) (w : world E) :
  ndim data = 2 ->
  pg_connect E conn_str (srv E w) = true ->
  pg_execute E conn_str (columns_statement table) (srv E w)
    = (ExecOk (Some []), s') ->
  dry_insert_into_db E conn_str table data w =
    (Raise (ValueError ("The table '" ++ table ++ "' does not exist")),
     mk_world E s'
       (trace E w ++ [EvConnect conn_str; EvExecute (columns_statement table);
                      EvCommit; EvClose])%list
       (stdout E w)).
Proof.
  intros Hr Hc Hq.
  rewrite (dry_insert_after_query _ _ _ _ _ _ Hr Hc Hq). reflexivity.
Qed.

(** C2: when the metadata query returns no row, the dry run of any
    2-dimensional array ends with the "does not exist" error on the
    table name; the number of columns of the array plays no part,
    the comparison of the counts is not reached. *)
Theorem dry_insert_missing_table (conn_str table : string) (data : ndarray)
    (s' : server E) (w : world E) :
  ndim data = 2 ->
  pg_connect E conn_str (srv E w) = true ->
  pg_execute E conn_str (columns_statement table) (srv E w)
    = (ExecOk (Some []), s') ->
  fst (dry_insert_into_db E conn_str table data w)
    = Raise (ValueError ("The table '" ++ table ++ "' does not exist")) /\
  stdout E (snd (dry_insert_into_db E conn_str table data w)) = stdout E w.
Proof.
  intros Hr Hc Hq.
  rewrite (dry_insert_no_columns _ _ _ _ _ Hr Hc Hq). now split.
Qed.


(** C1: on an existing table, that is when the metadata query
    returns the names of its columns, the dry run of a 2-dimensional
    array fails with the mismatch error naming both counts when the
    number of names differs from the number of columns of the array;
    otherwise it returns nothing and prints, after the title line,
    the table of a preview under the column names, then "Insertion
    shape is valid.".  The rows of the preview are the first rows of
    the stringified array, at most 3, and one row of "...". *)
Theorem dry_insert_existing_table (conn_str table : string) (data : ndarray)
    (r c : nat) (names : list string) (s' : server E) (w : world E) :
  wf data = true ->
  shape data = [r; c] ->
  names <> [] ->
  pg_connect E conn_str (srv E w) = true ->
  pg_execute E conn_str (columns_statement table) (srv E w)
    = (ExecOk (Some (map (fun n => [PyStr n]) names)), s') ->
  exists preview : ndarray,
    rows_str preview
      = (firstn 3 (chunks r c (elems_str (float_str E) (buf data)))
           ++ [repeat "..." c])%list /\
    dry_insert_into_db E conn_str table data w =
      if Nat.eqb (length names) c
      then
        (Ok tt,
         mk_world E s'
           (trace E w ++ [EvConnect conn_str; EvExecute (columns_statement table);
                          EvCommit; EvClose])%list
           (stdout E w ++ "Insert values into " ++ table ++ ":" ++ nl
              ++ tabulate E preview names ++ nl ++ nl
              ++ "Insertion shape is valid." ++ nl))
      else
        (Raise (ValueError
                  ("Number of columns (" ++ Py.str_of_nat (length names)
                     ++ ") does not match the number of columns in data ("
                     ++ Py.str_of_nat c ++ ")")),
         mk_world E s'
           (trace E w ++ [EvConnect conn_str; EvExecute (columns_statement table);
                          EvCommit; EvClose])%list
           (stdout E w)).
Proof.
  intros Hwf Hs Hne Hc Hq.
  set (elems := elems_str (float_str E) (buf data)).
  assert (Hlen : length elems = r * c).
  { unfold elems. rewrite length_elems_str.
    unfold wf in Hwf. apply Nat.eqb_eq in Hwf. rewrite Hwf, Hs. simpl. lia. }
  exists (mk_ndarray [Nat.min r 3 + 1; c]
            (BStr (firstn (Nat.min r 3 * c) elems ++ repeat "..." c)%list)).
  split.
  - unfold rows_str. cbn [shape buf].
    rewrite chunks_app.
    + rewrite chunks_firstn, chunks_one; [reflexivity|apply repeat_length].
    + rewrite length_firstn. nia.
  - assert (Hr : ndim data = 2) by (unfold ndim; now rewrite Hs).
    rewrite (dry_insert_after_query _ _ _ _ _ _ Hr Hc Hq).
    rewrite (array_of_column_names _ Hne).
    unfold bind at 1. unfold lift at 1.
    unfold flatten, len, shape1. cbn [shape buf nth prod fold_right].
    rewrite Hs. cbn [nth]. rewrite !Nat.mul_1_r.
    destruct (Nat.eqb (length names) 0) eqn:H0.
    { apply Nat.eqb_eq in H0. destruct names; [congruence|discriminate]. }
    destruct (Nat.eqb (length names) c) eqn:Hn; cbn [negb].
    + apply Nat.eqb_eq in Hn.
      unfold slice_to, astype_str. cbn [shape buf]. rewrite Hs.
      unfold bind at 1. unfold lift at 1.
      unfold concat0, full_str. cbn [shape buf buf_apply prod fold_right].
      rewrite Hn.
      destruct (list_eq_dec Nat.eq_dec [c] [c]) as [_|Hx]; [|congruence].
      unfold bind, lift, print, preview_text.
      cbn [srv trace stdout buf elems_str].
      rewrite !Nat.mul_1_r, Nat.mul_1_l. fold elems.
      rewrite !append_assoc. reflexivity.
    + unfold raise, mismatch_message. reflexivity.
Qed.

(** C9: when the schema query returns no row, as for a table that
    does not exist, the table describer ends with an indexing error
    raised while the column names are taken from the empty result:
    the count and boundary statements are never issued, and the
    error is not the "does not exist" error that the dry run gives
    when its own metadata query returns no row. *)
Theorem describe_missing_table (conn_str table order_column : string)
    (data : ndarray) (s' s'' : server E) (w : world E) :
  pg_connect E conn_str (srv E w) = true ->
  pg_execute E conn_str (schema_statement table) (srv E w)
    = (ExecOk (Some []), s') ->
  ndim data = 2 ->
  pg_execute E conn_str (columns_statement table) (srv E w)
    = (ExecOk (Some []), s'') ->
  describe_table E conn_str table order_column w =
    (Raise IndexError,
     mk_world E s'
       (trace E w ++ [EvConnect conn_str; EvExecute (schema_statement table);
                      EvRollback; EvClose])%list
       (stdout E w)) /\
  fst (dry_insert_into_db E conn_str table data w)
    = Raise (ValueError ("The table '" ++ table ++ "' does not exist")).
Proof.
  intros Hc Hq Hr Hq'. split.
  - unfold describe_table, with_connect. rewrite Hc.
    unfold bind at 1. unfold describe_fetch.
    unfold bind at 1. unfold execute, log. cbn [srv trace stdout].
    rewrite Hq. cbn [srv trace stdout].
    unfold bind, lift. cbn [fetchall array_of_rows index_last0 shape rev app].
    cbn [srv trace stdout]. rewrite <- !app_assoc. reflexivity.
  - now rewrite (dry_insert_no_columns _ _ _ _ _ Hr Hc Hq').
Qed.


(** *** The table describer on a stored table *)

Lemma every_nth_triples {A B : Type} (f g h : A -> B) (l : list A) :
  every_nth 3 (length l) (concat (map (fun c => [f c; g c; h c]) l)) = map f l.
Proof. induction l as [|x l IH]; simpl; [reflexivity|]. now rewrite IH. Qed.

Lemma array_of_schema_rows (t : Sql.table) :
  Sql.columns t <> [] ->
  array_of_rows (Sql.schema_rows t)
    = Ok (mk_ndarray [length (Sql.columns t); 3] (BStr (schema_cells t))).
Proof.
  intros Hne. unfold array_of_rows, Sql.schema_rows, schema_cells.
  destruct (Sql.columns t) as [|c0 cs]; [congruence|].
  set (l := c0 :: cs).
  change (map _ (c0 :: cs)) with
    (map (fun c => [PyStr (Sql.column_name c); PyStr (Sql.data_type c);
                    PyStr (Sql.is_nullable c)]) l).
  cbn [map l length].
  replace (forallb _ _) with true.
  2:{ symmetry. apply forallb_forall. intros x Hx.
      change (?a :: map ?f cs) with (map f l) in Hx.
      apply in_map_iff in Hx. destruct Hx as [y [<- _]]. reflexivity. }
  change (?a :: map ?f cs) with (map f l).
  rewrite length_map. do 2 f_equal.
  rewrite buffer_of_strings.
  - f_equal. subst l. clear Hne. revert c0.
    induction cs as [|c1 cs IH]; intros c0; [reflexivity|].
    specialize (IH c1). cbn [map concat app Py.str] in *.
    now rewrite IH.
  - discriminate.
  - apply forallb_forall. intros x Hx. apply in_concat in Hx.
    destruct Hx as [row [Hrow Hx]]. apply in_map_iff in Hrow.
    destruct Hrow as [y [<- _]]. simpl in Hx.
    destruct Hx as [<-|[<-|[<-|[]]]]; reflexivity.
Qed.

Lemma array_of_two_rows (k : nat) (r1 r2 : list Py.object) :
  length r1 = k -> length r2 = k ->
  array_of_rows [r1; r2] = Ok (mk_ndarray [2; k] (buffer_of_objects (r1 ++ r2))).
Proof.
  intros H1 H2. unfold array_of_rows. cbn [forallb length concat].
  rewrite H1, H2, Nat.eqb_refl, app_nil_r. reflexivity.
Qed.

Lemma wf_table_row (t : Sql.table) (r : list Py.object) :
  Sql.wf_table t = true -> In r (Sql.rows t) -> length r = length (Sql.columns t).
Proof.
  unfold Sql.wf_table. rewrite forallb_forall. intros H Hr.
  apply Nat.eqb_eq. now apply H.
Qed.

(** C8 (amended): for a stored table with at least one row and an
    orderable order column with unique values, the table describer
    returns one string made, in this order, of the header with the
    table name, the schema table (column name, data type,
    nullability), the sentence with the row count and the table of
    the boundary rows under the column names.  The boundary table
    has exactly 2 rows: the row with the least and the row with the
    greatest value of the order column, each the only row with that
    value.  The three statements issued are the three queries, and
    the server is left as it was. *)
Theorem describe_table_report (conn_str table order_column : string)
    (t : Sql.table) (j : nat) (le : Py.object -> Py.object -> bool) (w : world E) :
  (forall a b, le a b = true \/ le b a = true) ->
  (forall a b c, le a b = true -> le b c = true -> le a c = true) ->
  serves E conn_str (srv E w) table order_column t j le ->
  Sql.wf_table t = true ->
  Sql.columns t <> [] ->
  Sql.rows t <> [] ->
  NoDup (map (Sql.cell j) (Sql.rows t)) ->
  exists (schema boundary : ndarray) (rmin rmax : list Py.object),
    describe_table E conn_str table order_column w =
      (Ok ("Table summary: " ++ table ++ nl ++ nl
             ++ tabulate E schema ["column_name"; "data_type"; "is_nullable"]
             ++ nl ++ nl
             ++ "With " ++ Py.str_of_nat (length (Sql.rows t)) ++ " entiries"
             ++ nl ++ nl
             ++ "First & last being:" ++ nl
             ++ tabulate E boundary (map Sql.column_name (Sql.columns t))),
       mk_world E (srv E w)
         (trace E w ++ [EvConnect conn_str;
                        EvExecute (schema_statement table);
                        EvExecute (count_statement table);
                        EvExecute (boundary_statement table order_column);
                        EvCommit; EvClose])%list
         (stdout E w)) /\
    array_of_rows (Sql.schema_rows t) = Ok schema /\
    array_of_rows [rmin; rmax] = Ok boundary /\
    shape boundary = [2; length (Sql.columns t)] /\
    In rmin (Sql.rows t) /\ In rmax (Sql.rows t) /\
    forall x, In x (Sql.rows t) ->
      le (Sql.cell j rmin) (Sql.cell j x) = true /\
      le (Sql.cell j x) (Sql.cell j rmax) = true /\
      (Sql.cell j x = Sql.cell j rmin -> x = rmin) /\
      (Sql.cell j x = Sql.cell j rmax -> x = rmax).
Proof.
  intros Htotal Htrans [Hc [Hj [Hq1 [Hq2 Hq3]]]] Hwf Hcols Hrows Hnd.
  destruct (boundary_rows_extremes le j t Htotal Htrans Hrows)
    as [rmin [rmax [Hb [Imin [Imax Hext]]]]].
  pose proof (wf_table_row _ _ Hwf Imin) as Lmin.
  pose proof (wf_table_row _ _ Hwf Imax) as Lmax.
  pose proof (array_of_two_rows _ _ _ Lmin Lmax) as Hfl.
  exists (mk_ndarray [length (Sql.columns t); 3] (BStr (schema_cells t))),
         (mk_ndarray [2; length (Sql.columns t)] (buffer_of_objects (rmin ++ rmax))),
         rmin, rmax.
  split; [|split; [now apply array_of_schema_rows|]].
  - unfold describe_table, with_connect. rewrite Hc.
    unfold describe_fetch, bind, execute, lift, ret, log.
    cbn [srv trace stdout].
    rewrite Hq1. cbn [srv trace stdout fetchall].
    rewrite (array_of_schema_rows _ Hcols).
    unfold index_last0. cbn [shape rev app buf buf_apply prod fold_right].
    rewrite Nat.mul_1_r. unfold schema_cells.
    rewrite every_nth_triples.
    rewrite Hq2. cbn [srv trace stdout fetchall].
    unfold Sql.count_rows, array_of_rows at 1.
    cbn [forallb length Nat.eqb andb concat app buffer_of_objects
         common_dtype fold_left dtype_of_object map int_of_object
         flatten item0 buf shape].
    rewrite Hq3. cbn [srv trace stdout fetchall].
    rewrite Hb, Hfl.
    unfold report, table_info, first_last, schema_headers, scalar_str.
    cbn [arr cols enties_count first_last_rows buf elems_str srv trace stdout].
    rewrite <- !app_assoc. reflexivity.
  - split; [exact Hfl|]. split; [reflexivity|].
    split; [exact Imin|]. split; [exact Imax|].
    intros x Hx. destruct (Hext x Hx) as [H1 H2].
    split; [exact H1|]. split; [exact H2|].
    split; intros Hk; eapply cell_determines_row; eauto.
Qed.

End WithEnv.

(** *** Runs in the concrete environment *)

(** C3, as stated, fails: with the string flag on, the integer array
    [[1, 2]] is not formatted at all, the call ends with a type
    error. *)
Lemma prepare_for_insert_ints_flag_on :
  wf Demo.ints1x2 = true /\
  shape Demo.ints1x2 = [1; 2] /\
  _prepare_for_insert Demo.env Demo.ints1x2 true = Raise TypeError /\
  ~ exists s, _prepare_for_insert Demo.env Demo.ints1x2 true = Ok s.
Proof.
  repeat split. intros [s H]. discriminate H.
Qed.

Lemma prepare_for_insert_groups_witness :
  exists groups : list (list string),
    _prepare_for_insert Demo.env Demo.strs1x2 true
      = Ok (Py.join ", " (map group groups)) /\
    length groups = 1 /\
    Forall (fun g => length g = 2) groups /\
    concat groups = map (wrap true) (elems_str (float_str Demo.env) (buf Demo.strs1x2)).
Proof.
  apply (prepare_for_insert_groups Demo.env Demo.strs1x2 1 2 true);
    reflexivity.
Defined.

Lemma prepare_for_insert_rank_witness :
  _prepare_for_insert Demo.env (mk_ndarray [] (BInt [7%Z])) false
    = Raise (AssertionError "Data must be 2-dimensional. Given: () (0-dimensional)") /\
  _prepare_for_insert Demo.env (mk_ndarray [3] (BInt [1; 2; 3]%Z)) false
    = Raise (AssertionError "Data must be 2-dimensional. Given: (3,) (1-dimensional)") /\
  _prepare_for_insert Demo.env (mk_ndarray [1; 1; 2] (BStr ["a"; "b"])) true
    = Raise (AssertionError "Data must be 2-dimensional. Given: (1, 1, 2) (3-dimensional)").
Proof.
  split; [|split].
  - apply (prepare_for_insert_rank Demo.env (mk_ndarray [] (BInt [7%Z])) false).
    unfold ndim. simpl. lia.
  - apply (prepare_for_insert_rank Demo.env (mk_ndarray [3] (BInt [1; 2; 3]%Z)) false).
    unfold ndim. simpl. lia.
  - apply (prepare_for_insert_rank Demo.env (mk_ndarray [1; 1; 2] (BStr ["a"; "b"])) true).
    unfold ndim. simpl. lia.
Defined.

(** C10, as stated, fails: the object array [["a", "b"]] is not of a
    string dtype, and the call with the flag on returns its quoted
    values-list. *)
Lemma prepare_for_insert_objects_flag_on :
  shape Demo.objs1x2 = [1; 2] /\
  dtype_of Demo.objs1x2 = DObject /\
  _prepare_for_insert Demo.env Demo.objs1x2 true = Ok "('a', 'b')".
Proof. repeat split. Qed.

Lemma prepare_for_insert_flag_on_witness :
  _prepare_for_insert Demo.env Demo.ints1x2 true = Raise TypeError /\
  _prepare_for_insert Demo.env Demo.objs1x2 true = Ok "('a', 'b')" /\
  _prepare_for_insert Demo.env Demo.mixed1x3 true = Ok "('a', <NA>, 'b')" /\
  _prepare_for_insert Demo.env Demo.decimals1x2 true = Raise TypeError.
Proof.
  split; [|split; [|split]].
  - exact (proj1 (prepare_for_insert_flag_on Demo.env Demo.ints1x2 1 2 eq_refl)).
  - exact (proj1 (prepare_for_insert_flag_on Demo.env Demo.objs1x2 1 2 eq_refl)).
  - exact (proj1 (prepare_for_insert_flag_on Demo.env Demo.mixed1x3 1 3 eq_refl)).
  - exact (proj1 (prepare_for_insert_flag_on Demo.env Demo.decimals1x2 1 2 eq_refl)).
Defined.

(** C6, as stated, fails: with the string flag on and the integer
    array [[1, 2]], the insert executor ends with a type error before
    it connects, and executes no statement. *)
Lemma insert_into_db_ints_flag_on :
  ndim Demo.ints1x2 = 2 /\
  insert_into_db Demo.env Demo.conn_str "blocks" Demo.ints1x2 true Demo.world0
    = (Raise TypeError, Demo.world0) /\
  executed (trace Demo.env
              (snd (insert_into_db Demo.env Demo.conn_str "blocks"
                      Demo.ints1x2 true Demo.world0))) = [].
Proof. repeat split. Qed.

Lemma insert_into_db_one_statement_witness :
  executed (trace Demo.env
              (snd (insert_into_db Demo.env Demo.conn_str "blocks"
                      Demo.ints4x2 false Demo.world0)))
    = ["INSERT INTO blocks VALUES (1, 2), (3, 4), (5, 6), (7, 8)"] /\
  exists fin,
    trace Demo.env
      (snd (insert_into_db Demo.env Demo.conn_str "blocks"
              Demo.ints4x2 false Demo.world0))
      = [EvConnect Demo.conn_str;
         EvExecute "INSERT INTO blocks VALUES (1, 2), (3, 4), (5, 6), (7, 8)";
         fin; EvClose].
Proof.
  apply (insert_into_db_one_statement Demo.env Demo.conn_str "blocks"
           Demo.ints4x2 false "(1, 2), (3, 4), (5, 6), (7, 8)" Demo.world0);
    reflexivity.
Defined.

Lemma rank_rejected_before_database_witness :
  insert_into_db Demo.env Demo.conn_str "blocks"
      (mk_ndarray [3] (BInt [1; 2; 3]%Z)) false Demo.world0
    = (Raise (AssertionError "Data must be 2-dimensional. Given: (3,) (1-dimensional)"),
       Demo.world0) /\
  dry_insert_into_db Demo.env Demo.conn_str "blocks"
      (mk_ndarray [3] (BInt [1; 2; 3]%Z)) Demo.world0
    = (Raise (AssertionError "Data must be 2-dimensional. Given: (3,) (1-dimensional)"),
       Demo.world0).
Proof.
  apply (rank_rejected_before_database Demo.env Demo.conn_str "blocks"
           (mk_ndarray [3] (BInt [1; 2; 3]%Z)) false Demo.world0).
  unfold ndim. simpl. lia.
Defined.

Lemma dry_insert_existing_table_witness :
  exists preview : ndarray,
    rows_str preview = [["1"; "2"]; ["3"; "4"]; ["5"; "6"]; ["..."; "..."]] /\
    dry_insert_into_db Demo.env Demo.conn_str "blocks" Demo.ints4x2 Demo.world0 =
      (Ok tt,
       mk_world Demo.env Demo.db
         [EvConnect Demo.conn_str; EvExecute (columns_statement "blocks");
          EvCommit; EvClose]
         ("Insert values into blocks:" ++ nl
            ++ tabulate Demo.env preview ["height"; "hash"] ++ nl ++ nl
            ++ "Insertion shape is valid." ++ nl)).
Proof.
  apply (dry_insert_existing_table Demo.env Demo.conn_str "blocks" Demo.ints4x2
           4 2 ["height"; "hash"] Demo.db Demo.world0);
    try reflexivity.
  discriminate.
Defined.

Lemma dry_insert_missing_table_witness :
  fst (dry_insert_into_db Demo.env Demo.conn_str "nope" Demo.ints4x2 Demo.world0)
    = Raise (ValueError "The table 'nope' does not exist") /\
  stdout Demo.env
    (snd (dry_insert_into_db Demo.env Demo.conn_str "nope" Demo.ints4x2 Demo.world0))
    = "".
Proof.
  apply (dry_insert_missing_table Demo.env Demo.conn_str "nope" Demo.ints4x2
           Demo.db Demo.world0);
    reflexivity.
Defined.

Lemma describe_missing_table_witness :
  describe_table Demo.env Demo.conn_str "nope" "height" Demo.world0 =
    (Raise IndexError,
     mk_world Demo.env Demo.db
       [EvConnect Demo.conn_str; EvExecute (schema_statement "nope");
        EvRollback; EvClose]
       "") /\
  fst (dry_insert_into_db Demo.env Demo.conn_str "nope" Demo.ints4x2 Demo.world0)
    = Raise (ValueError "The table 'nope' does not exist").
Proof.
  apply (describe_missing_table Demo.env Demo.conn_str "nope" "height"
           Demo.ints4x2 Demo.db Demo.db Demo.world0);
    reflexivity.
Defined.

Lemma int_le_total (a b : Py.object) :
  Sql.int_le a b = true \/ Sql.int_le b a = true.
Proof. unfold Sql.int_le. lia. Qed.

Lemma int_le_trans (a b c : Py.object) :
  Sql.int_le a b = true -> Sql.int_le b c = true -> Sql.int_le a c = true.
Proof. unfold Sql.int_le. lia. Qed.

Lemma serves_mempool :
  serves Demo.env Demo.conn_str Demo.db "mempool" "height" Demo.mempool 0 Sql.int_le.
Proof. repeat split. Qed.

(** C8, as stated, fails: for a stored table with no row the boundary
    table of the report has no row instead of 2, under an order
    column that is, vacuously, unique in its values. *)
Lemma describe_table_no_rows :
  serves Demo.env Demo.conn_str Demo.db "mempool" "height" Demo.mempool 0 Sql.int_le /\
  length (Sql.rows Demo.mempool) = 0 /\
  NoDup (map (Sql.cell 0) (Sql.rows Demo.mempool)) /\
  exists d,
    fst (describe_fetch Demo.env Demo.conn_str "mempool" "height"
           (log Demo.env (EvConnect Demo.conn_str) Demo.world0)) = Ok d /\
    fst (describe_table Demo.env Demo.conn_str "mempool" "height" Demo.world0)
      = Ok (report Demo.env "mempool" d) /\
    shape (first_last_rows d) = [0] /\
    len (first_last_rows d) = 0.
Proof.
  split; [exact serves_mempool|]. split; [reflexivity|]. split; [constructor|].
  eexists. split; [vm_compute; reflexivity|]. repeat split.
Qed.

Lemma describe_table_report_witness :
  exists (schema boundary : ndarray) (rmin rmax : list Py.object),
    describe_table Demo.env Demo.conn_str "blocks" "height" Demo.world0 =
      (Ok ("Table summary: blocks" ++ nl ++ nl
             ++ tabulate Demo.env schema ["column_name"; "data_type"; "is_nullable"]
             ++ nl ++ nl
             ++ "With 3 entiries" ++ nl ++ nl
             ++ "First & last being:" ++ nl
             ++ tabulate Demo.env boundary ["height"; "hash"]),
       mk_world Demo.env Demo.db
         [EvConnect Demo.conn_str;
          EvExecute (schema_statement "blocks");
          EvExecute (count_statement "blocks");
          EvExecute (boundary_statement "blocks" "height");
          EvCommit; EvClose]
         "") /\
    array_of_rows (Sql.schema_rows Demo.blocks) = Ok schema /\
    array_of_rows [rmin; rmax] = Ok boundary /\
    shape boundary = [2; 2] /\
    In rmin (Sql.rows Demo.blocks) /\ In rmax (Sql.rows Demo.blocks) /\
    forall x, In x (Sql.rows Demo.blocks) ->
      Sql.int_le (Sql.cell 0 rmin) (Sql.cell 0 x) = true /\
      Sql.int_le (Sql.cell 0 x) (Sql.cell 0 rmax) = true /\
      (Sql.cell 0 x = Sql.cell 0 rmin -> x = rmin) /\
      (Sql.cell 0 x = Sql.cell 0 rmax -> x = rmax).
Proof.
  apply (describe_table_report Demo.env Demo.conn_str "blocks" "height"
           Demo.blocks 0 Sql.int_le Demo.world0).
  - exact int_le_total.
  - exact int_le_trans.
  - repeat split.
  - reflexivity.
  - discriminate.
  - discriminate.
  - simpl. repeat constructor; simpl; intuition discriminate.
Defined.

End Facts.

(** ** Further properties of the four functions *)

Module More.

Import Utility Props.

(** Case analysis on the innermost scrutinee of the goal, repeated. *)
Ltac split_cases :=
  repeat match goal with
         | |- context [match ?x with _ => _ end] =>
             lazymatch x with
             | context [match _ with _ => _ end] => fail
             | _ => destruct x eqn:?; cbn [fst snd trace srv stdout]
             end
         end.

(** *** Joining texts *)

Lemma join_app (sep : string) (l1 l2 : list string) :
  l1 <> [] -> l2 <> [] ->
  Py.join sep (l1 ++ l2) = Py.join sep l1 ++ sep ++ Py.join sep l2.
Proof.
  unfold Py.join. intros H1 H2.
  induction l1 as [|x l1 IH]; [congruence|].
  destruct l1 as [|y l1].
  - destruct l2 as [|z l2]; [congruence|]. reflexivity.
  - change (String.concat sep ((x :: y :: l1) ++ l2))
      with (x ++ sep ++ String.concat sep ((y :: l1) ++ l2)).
    rewrite IH by discriminate.
    change (String.concat sep (x :: y :: l1))
      with (x ++ sep ++ String.concat sep (y :: l1)).
    now rewrite !Facts.append_assoc.
Qed.

Lemma join_repeat_nil (r : nat) :
  map group (repeat [] r) = repeat "()" r.
Proof. induction r as [|r IH]; simpl; [reflexivity|]. now rewrite IH. Qed.

Lemma chunks_no_columns {A : Type} (r : nat) (l : list A) :
  chunks r 0 l = repeat [] r.
Proof.
  revert l. induction r as [|r IH]; intros l; simpl; [reflexivity|].
  now rewrite IH.
Qed.

Section WithEnv.
Context (E : Env).

(** *** The value-list formatter *)

(** X1: an array with [r] rows and no column is formatted, with the
    flag off, as [r] empty groups "()" joined by ", ". *)
Theorem prepare_for_insert_no_columns (data : ndarray) (r : nat) :
  shape data = [r; 0] ->
  _prepare_for_insert E data false = Ok (Py.join ", " (repeat "()" r)).
Proof.
  intros Hs. rewrite (Facts.formatter_closed_form E data r 0 false Hs eq_refl).
  unfold values_list.
  now rewrite chunks_no_columns, join_repeat_nil.
Qed.

(** X2: nothing is escaped.  With the flag on, the one-cell row whose
    text is [a], a quote, a comma, a space, a quote and [b] is formatted
    exactly as the two-cell row [a], [b]. *)
Theorem prepare_for_insert_no_escaping (a b : string) :
  _prepare_for_insert E (mk_ndarray [1; 1] (BStr [a ++ "', '" ++ b])) true
    = Ok ("('" ++ a ++ "', '" ++ b ++ "')") /\
  _prepare_for_insert E (mk_ndarray [1; 2] (BStr [a; b])) true
    = Ok ("('" ++ a ++ "', '" ++ b ++ "')").
Proof.
  split.
  - rewrite (Facts.formatter_closed_form E
               (mk_ndarray [1; 1] (BStr [a ++ "', '" ++ b])) 1 1 true eq_refl eq_refl).
    cbn. repeat (rewrite Facts.append_assoc; cbn). reflexivity.
  - rewrite (Facts.formatter_closed_form E
               (mk_ndarray [1; 2] (BStr [a; b])) 1 2 true eq_refl eq_refl).
    cbn. repeat (rewrite Facts.append_assoc; cbn). reflexivity.
Qed.

(** X3: formatting composes over stacking.  For two string arrays with
    at least one row each and the same number of columns, the
    values-list of [np.concat([a, b], axis=0)] is the values-list of [a],
    ", " and the values-list of [b]. *)
Theorem prepare_for_insert_stacked (a b ab : ndarray) (r1 r2 c : nat)
    (flag : bool) (va vb : string) :
  wf a = true ->
  shape a = [S r1; c] ->
  shape b = [S r2; c] ->
  concat0 a b = Ok ab ->
  _prepare_for_insert E a flag = Ok va ->
  _prepare_for_insert E b flag = Ok vb ->
  _prepare_for_insert E ab flag = Ok (va ++ ", " ++ vb).
Proof.
  intros Hwf Ha Hb Hab Hva Hvb.
  unfold concat0 in Hab. rewrite Ha, Hb in Hab.
  destruct (list_eq_dec Nat.eq_dec [c] [c]) as [_|Hx]; [|congruence].
  destruct (buf a) as [| | |la|] eqn:Hba; try discriminate.
  destruct (buf b) as [| | |lb|] eqn:Hbb; try discriminate.
  injection Hab as <-.
  assert (Sa : string_like a = true) by (unfold string_like; now rewrite Hba).
  assert (Sb : string_like b = true) by (unfold string_like; now rewrite Hbb).
  assert (Oa : negb flag || string_like a = true) by (rewrite Sa; apply orb_true_r).
  assert (Ob : negb flag || string_like b = true) by (rewrite Sb; apply orb_true_r).
  rewrite (Facts.formatter_closed_form E a (S r1) c flag Ha Oa) in Hva.
  rewrite (Facts.formatter_closed_form E b (S r2) c flag Hb Ob) in Hvb.
  rewrite Facts.formatter_closed_form with (r := S r1 + S r2) (c := c)
    by (try reflexivity; apply orb_true_r).
  injection Hva as <-. injection Hvb as <-.
  rewrite Hba, Hbb. cbn [buf elems_str]. f_equal.
  unfold values_list. rewrite map_app, Facts.chunks_app.
  - rewrite map_app. apply join_app.
    + cbn [chunks map]. discriminate.
    + cbn [chunks map]. discriminate.
  - rewrite length_map. unfold wf in Hwf. apply Nat.eqb_eq in Hwf.
    rewrite Hba, Ha in Hwf. cbn [buf_size prod fold_right] in Hwf. lia.
Qed.

(** *** The insert executor *)

Lemma insert_into_db_refused (conn_str table : string) (data : ndarray)
    (flag : bool) (values : string) (w : world E) :
  _prepare_for_insert E data flag = Ok values ->
  pg_connect E conn_str (srv E w) = false ->
  insert_into_db E conn_str table data flag w =
    (Raise DatabaseError,
     mk_world E (srv E w) (trace E w ++ [EvConnect conn_str])%list (stdout E w)).
Proof.
  intros Hv Hc.
  assert (Hr := Facts.formatter_ok_rank E _ _ _ Hv). apply Nat.eqb_eq in Hr.
  unfold insert_into_db. rewrite Hr. cbn [negb].
  unfold bind at 1. unfold lift. rewrite Hv.
  unfold with_connect. now rewrite Hc.
Qed.

(** X4: an array with no row is not held back.  With the flag off and
    an open connection, the executor sends the statement that ends
    after " VALUES ", with an empty values-list. *)
Theorem insert_into_db_no_rows (conn_str table : string) (data : ndarray)
    (c : nat) (w : world E) :
  shape data = [0; c] ->
  pg_connect E conn_str (srv E w) = true ->
  _prepare_for_insert E data false = Ok "" /\
  executed (trace E (snd (insert_into_db E conn_str table data false w)))
    = (executed (trace E w) ++ [("INSERT INTO " ++ table ++ " VALUES ")%string])%list.
Proof.
  intros Hs Hc.
  assert (Hv : _prepare_for_insert E data false = Ok "")
    by now rewrite (Facts.formatter_closed_form E data 0 c false Hs eq_refl).
  split; [exact Hv|].
  rewrite (Facts.insert_into_db_run E conn_str table data false "" w Hv Hc).
  unfold insert_statement.
  destruct (pg_execute E conn_str _ (srv E w)) as [[cur|] s']; cbn [snd trace];
    now rewrite Facts.executed_app.
Qed.

(** X5: whatever the arguments and the answers of the server, a call
    of the insert executor adds to the trace either no statement or the
    one INSERT statement built from the values-list of the formatter.
    The transaction is committed exactly when the call returns
    normally, and nothing is printed. *)
Theorem insert_into_db_statements (conn_str table : string) (data : ndarray)
    (flag : bool) (w : world E) :
  exists new : list event,
    trace E (snd (insert_into_db E conn_str table data flag w))
      = (trace E w ++ new)%list /\
    (executed new = [] \/
     exists values,
       _prepare_for_insert E data flag = Ok values /\
       executed new = [insert_statement table values]) /\
    (In EvCommit new <-> fst (insert_into_db E conn_str table data flag w) = Ok tt) /\
    stdout E (snd (insert_into_db E conn_str table data flag w)) = stdout E w.
Proof.
  destruct (_prepare_for_insert E data flag) as [values|e] eqn:Hv.
  - destruct (pg_connect E conn_str (srv E w)) eqn:Hc.
    + rewrite (Facts.insert_into_db_run E conn_str table data flag values w Hv Hc).
      destruct (pg_execute E conn_str _ (srv E w)) as [[cur|] s'];
        cbn [fst snd trace stdout].
      * eexists. split; [reflexivity|]. split; [right; now exists values|].
        split; [|reflexivity]. split; [reflexivity|]. intros _. simpl. tauto.
      * eexists. split; [reflexivity|]. split; [right; now exists values|].
        split; [|reflexivity]. split; [|discriminate].
        simpl. intuition discriminate.
    + rewrite (insert_into_db_refused conn_str table data flag values w Hv Hc).
      cbn [fst snd trace stdout].
      eexists. split; [reflexivity|]. split; [now left|].
      split; [|reflexivity]. split; [|discriminate].
      simpl. intuition discriminate.
  - rewrite (Facts.insert_into_db_formatter_raises E conn_str table data flag e w Hv).
    cbn [fst snd]. exists []. rewrite app_nil_r.
    split; [reflexivity|]. split; [now left|].
    split; [|reflexivity]. split; [intros []|discriminate].
Qed.

(** *** The dry-run validator *)

(** The dry run of an array of rank 2, up to the end of the [with]
    block. *)
Lemma dry_insert_run (conn_str table : string) (data : ndarray) (w : world E) :
  ndim data = 2 ->
  dry_insert_into_db E conn_str table data w =
    if pg_connect E conn_str (srv E w) then
      match pg_execute E conn_str (columns_statement table) (srv E w) with
      | (ExecOk res, s') =>
          after_query E table data res
            (mk_world E s'
               (trace E w ++ [EvConnect conn_str; EvExecute (columns_statement table);
                              EvCommit; EvClose])%list
               (stdout E w))
      | (ExecError, s') =>
          (Raise DatabaseError,
           mk_world E s'
             (trace E w ++ [EvConnect conn_str; EvExecute (columns_statement table);
                            EvRollback; EvClose])%list
             (stdout E w))
      end
    else
      (Raise DatabaseError,
       mk_world E (srv E w) (trace E w ++ [EvConnect conn_str])%list (stdout E w)).
Proof.
  intros Hr. apply Nat.eqb_eq in Hr.
  unfold dry_insert_into_db. rewrite Hr. cbn [negb].
  unfold bind at 1. unfold with_connect, execute, log.
  destruct (pg_connect E conn_str (srv E w)); cbn [srv trace stdout]; [|reflexivity].
  destruct (pg_execute E conn_str (columns_statement table) (srv E w))
    as [[res|] s']; cbn [srv trace stdout]; rewrite <- !app_assoc; reflexivity.
Qed.

(** After the query nothing reaches the driver any more, and text is
    printed only by a call that returns normally. *)
Lemma after_query_quiet (table : string) (data : ndarray) (res : cursor)
    (w : world E) :
  trace E (snd (after_query E table data res w)) = trace E w /\
  srv E (snd (after_query E table data res w)) = srv E w /\
  (fst (after_query E table data res w) = Ok tt \/
   stdout E (snd (after_query E table data res w)) = stdout E w).
Proof.
  unfold after_query, bind, lift, raise, print.
  split_cases; auto.
Qed.


(** X6: whatever the arguments and the answers of the server, a dry
    run adds to the trace either no statement or the one SELECT on the
    column names of the table, so it never writes to the table; and it
    prints only when it returns normally. *)
Theorem dry_insert_statements (conn_str table : string) (data : ndarray)
    (w : world E) :
  exists new : list event,
    trace E (snd (dry_insert_into_db E conn_str table data w))
      = (trace E w ++ new)%list /\
    (executed new = [] \/ executed new = [columns_statement table]) /\
    (fst (dry_insert_into_db E conn_str table data w) = Ok tt \/
     stdout E (snd (dry_insert_into_db E conn_str table data w)) = stdout E w).
Proof.
  destruct (Nat.eqb (ndim data) 2) eqn:Hr.
  - apply Nat.eqb_eq in Hr. rewrite (dry_insert_run _ _ _ _ Hr).
    destruct (pg_connect E conn_str (srv E w)).
    + destruct (pg_execute E conn_str (columns_statement table) (srv E w))
        as [[res|] s'].
      * match goal with
        | |- context [after_query E table data res ?w1] =>
            destruct (after_query_quiet table data res w1) as [Ht [_ Ho]]
        end.
        cbn [srv trace stdout] in Ht, Ho.
        exists [EvConnect conn_str; EvExecute (columns_statement table);
                EvCommit; EvClose].
        split; [exact Ht|]. split; [now right|exact Ho].
      * exists [EvConnect conn_str; EvExecute (columns_statement table);
                EvRollback; EvClose].
        cbn [fst snd trace stdout].
        split; [reflexivity|]. split; [now right|now right].
    + exists [EvConnect conn_str]. cbn [fst snd trace stdout].
      split; [reflexivity|]. split; [now left|now right].
  - unfold dry_insert_into_db. rewrite Hr. cbn [negb]. unfold raise.
    exists []. cbn [fst snd]. rewrite app_nil_r.
    split; [reflexivity|]. split; [now left|now right].
Qed.


(** X8: a dry run that passes vouches for the shape of what is
    inserted.  When the dry run of an array returns normally on a
    table with the given column names, the rows of the stringified
    array, which hold its elements in order, are as many as the array
    has rows and each holds exactly one element per column of the
    table; and the insert executor, run next with the flag off, sends
    one INSERT statement whose values-list is the formatting of these
    very rows. *)
Theorem dry_insert_then_insert (conn_str table : string) (data : ndarray)
    (r c : nat) (names : list string) (s' : server E) (w : world E) :
  wf data = true ->
  shape data = [r; c] ->
  names <> [] ->
  pg_connect E conn_str (srv E w) = true ->
  pg_execute E conn_str (columns_statement table) (srv E w)
    = (ExecOk (Some (map (fun n => [PyStr n]) names)), s') ->
  fst (dry_insert_into_db E conn_str table data w) = Ok tt ->
  pg_connect E conn_str s' = true ->
  length (rows_str (astype_str (float_str E) data)) = r /\
  Forall (fun g => length g = length names) (rows_str (astype_str (float_str E) data)) /\
  concat (rows_str (astype_str (float_str E) data)) = elems_str (float_str E) (buf data) /\
  executed (trace E (snd (insert_into_db E conn_str table data false
                            (snd (dry_insert_into_db E conn_str table data w)))))
    = (executed (trace E (snd (dry_insert_into_db E conn_str table data w)))
         ++ [("INSERT INTO " ++ table ++ " VALUES "
                ++ values_list (rows_str (astype_str (float_str E) data)))%string])%list.
Proof.
  intros Hwf Hs Hne Hc Hq Hok Hc'.
  assert (Hr : ndim data = 2) by (unfold ndim; now rewrite Hs).
  rewrite (dry_insert_run _ _ _ _ Hr), Hc, Hq in Hok |- *.
  match goal with
  | |- context [after_query E table data ?res ?w1] =>
      destruct (after_query_quiet table data res w1) as [_ [Hsrv _]];
      set (w2 := snd (after_query E table data res w1)) in *;
      assert (Hn : length names = c)
  end.
  { unfold after_query, bind, lift in Hok. cbn [fetchall] in Hok.
    rewrite (Facts.array_of_column_names names Hne) in Hok.
    unfold flatten, len, shape1 in Hok.
    cbn [shape buf nth prod fold_right] in Hok. rewrite Hs in Hok.
    cbn [nth] in Hok. rewrite !Nat.mul_1_r in Hok.
    destruct (Nat.eqb (length names) 0); [discriminate|].
    destruct (Nat.eqb (length names) c) eqn:Hn; [now apply Nat.eqb_eq|].
    discriminate. }
  cbn [srv] in Hsrv.
  assert (Hv := Facts.formatter_closed_form E data r c false Hs eq_refl).
  assert (Hrows : rows_str (astype_str (float_str E) data)
                  = chunks r c (elems_str (float_str E) (buf data))).
  { unfold rows_str, astype_str. cbn [shape buf]. now rewrite Hs. }
  assert (Hid : map (wrap false) (elems_str (float_str E) (buf data))
                = elems_str (float_str E) (buf data)) by apply map_id.
  rewrite Hid in Hv. rewrite Hrows.
  assert (Hlen : length (elems_str (float_str E) (buf data)) = r * c).
  { rewrite Facts.length_elems_str.
    unfold wf in Hwf. apply Nat.eqb_eq in Hwf. rewrite Hwf, Hs. simpl. lia. }
  split; [apply Facts.chunks_length|].
  split; [rewrite Hn; now apply Facts.chunks_widths|].
  split; [now apply Facts.chunks_concat|].
  assert (Hc2 : pg_connect E conn_str (srv E w2) = true) by now rewrite Hsrv.
  rewrite (Facts.insert_into_db_run E conn_str table data false _ w2 Hv Hc2).
  unfold insert_statement.
  destruct (pg_execute E conn_str _ (srv E w2)) as [[cur|] s2]; cbn [snd trace];
    now rewrite Facts.executed_app.
Qed.

(** X9: when the connection cannot be opened, each of the three
    functions ends with the error of the driver after the one attempt
    to connect: no statement is sent and nothing is printed. *)
Theorem connection_refused (conn_str table order_column : string)
    (data : ndarray) (flag : bool) (values : string) (w : world E) :
  pg_connect E conn_str (srv E w) = false ->
  _prepare_for_insert E data flag = Ok values ->
  insert_into_db E conn_str table data flag w =
    (Raise DatabaseError,
     mk_world E (srv E w) (trace E w ++ [EvConnect conn_str])%list (stdout E w)) /\
  dry_insert_into_db E conn_str table data w =
    (Raise DatabaseError,
     mk_world E (srv E w) (trace E w ++ [EvConnect conn_str])%list (stdout E w)) /\
  describe_table E conn_str table order_column w =
    (Raise DatabaseError,
     mk_world E (srv E w) (trace E w ++ [EvConnect conn_str])%list (stdout E w)).
Proof.
  intros Hc Hv.
  assert (Hr := Facts.formatter_ok_rank E _ _ _ Hv).
  split; [now apply (insert_into_db_refused conn_str table data flag values)|].
  split.
  - now rewrite (dry_insert_run _ _ _ _ Hr), Hc.
  - unfold describe_table, with_connect. now rewrite Hc.
Qed.

(** *** The table describer *)

(** The describer on a stored table, up to the answer to the boundary
    statement. *)
Lemma describe_table_until_boundary (conn_str table order_column : string)
    (t : Sql.table) (s1 s2 : server E) (w : world E) :
  pg_connect E conn_str (srv E w) = true ->
  Sql.columns t <> [] ->
  pg_execute E conn_str (schema_statement table) (srv E w)
    = (ExecOk (Some (Sql.schema_rows t)), s1) ->
  pg_execute E conn_str (count_statement table) s1
    = (ExecOk (Some (Sql.count_rows t)), s2) ->
  describe_table E conn_str table order_column w =
    match pg_execute E conn_str (boundary_statement table order_column) s2 with
    | (o, s3) =>
        match
          match o with
          | ExecOk res =>
              match fetchall res with
              | Ok fetched => array_of_rows fetched
              | Raise e => Raise e
              end
          | ExecError => Raise DatabaseError
          end
        with
        | Ok boundary =>
            (Ok ("Table summary: " ++ table ++ nl ++ nl
                   ++ tabulate E
                        (mk_ndarray [length (Sql.columns t); 3] (BStr (schema_cells t)))
                        ["column_name"; "data_type"; "is_nullable"]
                   ++ nl ++ nl
                   ++ "With " ++ Py.str_of_nat (length (Sql.rows t)) ++ " entiries"
                   ++ nl ++ nl
                   ++ "First & last being:" ++ nl
                   ++ tabulate E boundary (map Sql.column_name (Sql.columns t))),
             mk_world E s3
               (trace E w ++ [EvConnect conn_str;
                              EvExecute (schema_statement table);
                              EvExecute (count_statement table);
                              EvExecute (boundary_statement table order_column);
                              EvCommit; EvClose])%list
               (stdout E w))
        | Raise e =>
            (Raise e,
             mk_world E s3
               (trace E w ++ [EvConnect conn_str;
                              EvExecute (schema_statement table);
                              EvExecute (count_statement table);
                              EvExecute (boundary_statement table order_column);
                              EvRollback; EvClose])%list
               (stdout E w))
        end
    end.
Proof.
  intros Hc Hcols Hq1 Hq2.
  unfold describe_table, with_connect. rewrite Hc.
  unfold describe_fetch, bind, execute, lift, ret, log.
  cbn [srv trace stdout].
  rewrite Hq1. cbn [srv trace stdout fetchall].
  rewrite (Facts.array_of_schema_rows t Hcols).
  unfold index_last0. cbn [shape rev app buf buf_apply prod fold_right].
  rewrite Nat.mul_1_r. unfold schema_cells.
  rewrite Facts.every_nth_triples.
  rewrite Hq2. cbn [srv trace stdout fetchall].
  unfold Sql.count_rows, array_of_rows at 1.
  cbn [forallb length Nat.eqb andb concat app buffer_of_objects
       common_dtype fold_left dtype_of_object map int_of_object
       flatten item0 buf shape].
  destruct (pg_execute E conn_str (boundary_statement table order_column) s2)
    as [[res|] s3]; cbn [srv trace stdout].
  - destruct (fetchall res) as [fetched|e]; cbn [srv trace stdout].
    + destruct (array_of_rows fetched) as [boundary|e]; cbn [srv trace stdout].
      * unfold report, table_info, first_last, schema_headers, scalar_str.
        cbn [arr cols enties_count first_last_rows buf elems_str srv trace stdout].
        rewrite <- !app_assoc. reflexivity.
      * rewrite <- !app_assoc. reflexivity.
    + rewrite <- !app_assoc. reflexivity.
  - rewrite <- !app_assoc. reflexivity.
Qed.

(** X10: the order column is not checked.  When the server rejects
    the boundary statement, as it does for a column that the table
    does not have, the describer ends with the error of the driver
    after the three statements; the transaction is rolled back, the
    connection closed, and no report is returned. *)
Theorem describe_table_rejected_order (conn_str table order_column : string)
    (t : Sql.table) (s1 s2 s3 : server E) (w : world E) :
  pg_connect E conn_str (srv E w) = true ->
  Sql.columns t <> [] ->
  pg_execute E conn_str (schema_statement table) (srv E w)
    = (ExecOk (Some (Sql.schema_rows t)), s1) ->
  pg_execute E conn_str (count_statement table) s1
    = (ExecOk (Some (Sql.count_rows t)), s2) ->
  pg_execute E conn_str (boundary_statement table order_column) s2
    = (ExecError, s3) ->
  describe_table E conn_str table order_column w =
    (Raise DatabaseError,
     mk_world E s3
       (trace E w ++ [EvConnect conn_str;
                      EvExecute (schema_statement table);
                      EvExecute (count_statement table);
                      EvExecute (boundary_statement table order_column);
                      EvRollback; EvClose])%list
       (stdout E w)).
Proof.
  intros Hc Hcols Hq1 Hq2 Hq3.
  now rewrite (describe_table_until_boundary _ _ _ _ _ _ _ Hc Hcols Hq1 Hq2), Hq3.
Qed.

(** X11: a stored table without rows is described without an error:
    the report counts 0 rows and its boundary table is made from the
    empty array [np.array([])], so it has no row. *)
Theorem describe_table_empty (conn_str table order_column : string)
    (t : Sql.table) (j : nat) (le : Py.object -> Py.object -> bool) (w : world E) :
  serves E conn_str (srv E w) table order_column t j le ->
  Sql.columns t <> [] ->
  Sql.rows t = [] ->
  describe_table E conn_str table order_column w =
    (Ok ("Table summary: " ++ table ++ nl ++ nl
           ++ tabulate E
                (mk_ndarray [length (Sql.columns t); 3] (BStr (schema_cells t)))
                ["column_name"; "data_type"; "is_nullable"]
           ++ nl ++ nl
           ++ "With 0 entiries" ++ nl ++ nl
           ++ "First & last being:" ++ nl
           ++ tabulate E (mk_ndarray [0] (BFloat []))
                (map Sql.column_name (Sql.columns t))),
     mk_world E (srv E w)
       (trace E w ++ [EvConnect conn_str;
                      EvExecute (schema_statement table);
                      EvExecute (count_statement table);
                      EvExecute (boundary_statement table order_column);
                      EvCommit; EvClose])%list
       (stdout E w)).
Proof.
  intros [Hc [Hj [Hq1 [Hq2 Hq3]]]] Hcols Hrows.
  rewrite (describe_table_until_boundary _ _ _ _ _ _ _ Hc Hcols Hq1 Hq2), Hq3.
  unfold Sql.boundary_rows. rewrite Hrows. reflexivity.
Qed.

(** X12: for a stored table with a single row, the boundary table of
    the report holds that row twice, as its least and as its greatest
    row. *)
Theorem describe_table_single_row (conn_str table order_column : string)
    (t : Sql.table) (j : nat) (le : Py.object -> Py.object -> bool)
    (row : list Py.object) (w : world E) :
  serves E conn_str (srv E w) table order_column t j le ->
  Sql.columns t <> [] ->
  Sql.rows t = [row] ->
  length row = length (Sql.columns t) ->
  describe_table E conn_str table order_column w =
    (Ok ("Table summary: " ++ table ++ nl ++ nl
           ++ tabulate E
                (mk_ndarray [length (Sql.columns t); 3] (BStr (schema_cells t)))
                ["column_name"; "data_type"; "is_nullable"]
           ++ nl ++ nl
           ++ "With 1 entiries" ++ nl ++ nl
           ++ "First & last being:" ++ nl
           ++ tabulate E
                (mk_ndarray [2; length (Sql.columns t)] (buffer_of_objects (row ++ row)))
                (map Sql.column_name (Sql.columns t))),
     mk_world E (srv E w)
       (trace E w ++ [EvConnect conn_str;
                      EvExecute (schema_statement table);
                      EvExecute (count_statement table);
                      EvExecute (boundary_statement table order_column);
                      EvCommit; EvClose])%list
       (stdout E w)).
Proof.
  intros [Hc [Hj [Hq1 [Hq2 Hq3]]]] Hcols Hrows Hlen.
  rewrite (describe_table_until_boundary _ _ _ _ _ _ _ Hc Hcols Hq1 Hq2), Hq3.
  unfold Sql.boundary_rows. rewrite Hrows.
  cbn [Sql.order_by fold_right Sql.insert_by firstn app fetchall].
  rewrite (Facts.array_of_two_rows _ _ _ Hlen Hlen). reflexivity.
Qed.

(** X13: whatever the arguments and the answers of the server, the
    statements that a call of the describer adds to the trace are the
    schema, count and boundary queries in this order, or the first ones
    of them when the call ends early: it sends nothing but these three
    SELECT statements.  The transaction is committed exactly when a
    report is returned, which needs all three, and nothing is printed. *)
Theorem describe_table_statements (conn_str table order_column : string)
    (w : world E) :
  exists new : list event,
    trace E (snd (describe_table E conn_str table order_column w))
      = (trace E w ++ new)%list /\
    (executed new = [] \/
     executed new = [schema_statement table] \/
     executed new = [schema_statement table; count_statement table] \/
     executed new = [schema_statement table; count_statement table;
                     boundary_statement table order_column]) /\
    (In EvCommit new <->
     exists text, fst (describe_table E conn_str table order_column w) = Ok text) /\
    (In EvCommit new ->
     executed new = [schema_statement table; count_statement table;
                     boundary_statement table order_column]) /\
    stdout E (snd (describe_table E conn_str table order_column w)) = stdout E w.
Proof.
  unfold describe_table, with_connect, describe_fetch, bind, execute, lift, ret, log.
  cbn [srv trace stdout].
  split_cases;
    (eexists; split; [rewrite <- ?app_assoc; reflexivity|];
     cbn [executed flat_map app In];
     repeat split; auto; try tauto;
     try (intros [text Ht]; discriminate Ht);
     try (intros [H|H]; try discriminate H; intuition discriminate);
     try (intros _; eexists; reflexivity);
     intuition discriminate).
Qed.

End WithEnv.

(** *** Runs in the concrete environment *)

Lemma prepare_for_insert_no_columns_witness :
  _prepare_for_insert Demo.env (mk_ndarray [2; 0] (BInt [])) false = Ok "(), ()".
Proof.
  apply (prepare_for_insert_no_columns Demo.env (mk_ndarray [2; 0] (BInt [])) 2).
  reflexivity.
Defined.

Lemma prepare_for_insert_stacked_witness :
  _prepare_for_insert Demo.env
      (mk_ndarray [3; 2] (BStr ["a"; "b"; "c"; "d"; "a"; "b"])) true
    = Ok "('a', 'b'), ('c', 'd'), ('a', 'b')".
Proof.
  apply (prepare_for_insert_stacked Demo.env Demo.strs2x2 Demo.strs1x2
           (mk_ndarray [3; 2] (BStr ["a"; "b"; "c"; "d"; "a"; "b"]))
           1 0 2 true "('a', 'b'), ('c', 'd')" "('a', 'b')");
    reflexivity.
Defined.

Lemma insert_into_db_no_rows_witness :
  _prepare_for_insert Demo.env (mk_ndarray [0; 2] (BInt [])) false = Ok "" /\
  executed (trace Demo.env
              (snd (insert_into_db Demo.env Demo.conn_str "blocks"
                      (mk_ndarray [0; 2] (BInt [])) false Demo.world0)))
    = ["INSERT INTO blocks VALUES "].
Proof.
  apply (insert_into_db_no_rows Demo.env Demo.conn_str "blocks"
           (mk_ndarray [0; 2] (BInt [])) 2 Demo.world0);
    reflexivity.
Defined.


Lemma dry_insert_then_insert_witness :
  length (rows_str (astype_str (float_str Demo.env) Demo.ints4x2)) = 4 /\
  Forall (fun g => length g = 2)
         (rows_str (astype_str (float_str Demo.env) Demo.ints4x2)) /\
  concat (rows_str (astype_str (float_str Demo.env) Demo.ints4x2))
    = ["1"; "2"; "3"; "4"; "5"; "6"; "7"; "8"] /\
  executed (trace Demo.env
              (snd (insert_into_db Demo.env Demo.conn_str "blocks" Demo.ints4x2 false
                      (snd (dry_insert_into_db Demo.env Demo.conn_str "blocks"
                              Demo.ints4x2 Demo.world0)))))
    = (executed (trace Demo.env
                   (snd (dry_insert_into_db Demo.env Demo.conn_str "blocks"
                           Demo.ints4x2 Demo.world0)))
         ++ ["INSERT INTO blocks VALUES (1, 2), (3, 4), (5, 6), (7, 8)"])%list.
Proof.
  apply (dry_insert_then_insert Demo.env Demo.conn_str "blocks" Demo.ints4x2
           4 2 ["height"; "hash"] Demo.db Demo.world0);
    try reflexivity.
  discriminate.
Defined.

Lemma connection_refused_witness :
  insert_into_db Demo.env "dbname=other" "blocks" Demo.ints4x2 false Demo.world0 =
    (Raise DatabaseError,
     mk_world Demo.env Demo.db [EvConnect "dbname=other"] "") /\
  dry_insert_into_db Demo.env "dbname=other" "blocks" Demo.ints4x2 Demo.world0 =
    (Raise DatabaseError,
     mk_world Demo.env Demo.db [EvConnect "dbname=other"] "") /\
  describe_table Demo.env "dbname=other" "blocks" "height" Demo.world0 =
    (Raise DatabaseError,
     mk_world Demo.env Demo.db [EvConnect "dbname=other"] "").
Proof.
  apply (connection_refused Demo.env "dbname=other" "blocks" "height"
           Demo.ints4x2 false "(1, 2), (3, 4), (5, 6), (7, 8)" Demo.world0);
    reflexivity.
Defined.

Lemma describe_table_rejected_order_witness :
  describe_table Demo.env Demo.conn_str "blocks" "nonce" Demo.world0 =
    (Raise DatabaseError,
     mk_world Demo.env Demo.db
       [EvConnect Demo.conn_str;
        EvExecute (schema_statement "blocks");
        EvExecute (count_statement "blocks");
        EvExecute (boundary_statement "blocks" "nonce");
        EvRollback; EvClose]
       "").
Proof.
  apply (describe_table_rejected_order Demo.env Demo.conn_str "blocks" "nonce"
           Demo.blocks Demo.db Demo.db Demo.db Demo.world0);
    try reflexivity.
  discriminate.
Defined.

Lemma describe_table_empty_witness :
  describe_table Demo.env Demo.conn_str "mempool" "height" Demo.world0 =
    (Ok ("Table summary: mempool" ++ nl ++ nl
           ++ tabulate Demo.env
                (mk_ndarray [2; 3] (BStr (schema_cells Demo.mempool)))
                ["column_name"; "data_type"; "is_nullable"]
           ++ nl ++ nl
           ++ "With 0 entiries" ++ nl ++ nl
           ++ "First & last being:" ++ nl
           ++ tabulate Demo.env (mk_ndarray [0] (BFloat [])) ["height"; "hash"]),
     mk_world Demo.env Demo.db
       [EvConnect Demo.conn_str;
        EvExecute (schema_statement "mempool");
        EvExecute (count_statement "mempool");
        EvExecute (boundary_statement "mempool" "height");
        EvCommit; EvClose]
       "").
Proof.
  apply (describe_table_empty Demo.env Demo.conn_str "mempool" "height"
           Demo.mempool 0 Sql.int_le Demo.world0).
  - repeat split.
  - discriminate.
  - reflexivity.
Defined.

Lemma describe_table_single_row_witness :
  describe_table Demo.env Demo.conn_str "genesis" "height" Demo.world1 =
    (Ok ("Table summary: genesis" ++ nl ++ nl
           ++ tabulate Demo.env
                (mk_ndarray [2; 3] (BStr (schema_cells Demo.genesis)))
                ["column_name"; "data_type"; "is_nullable"]
           ++ nl ++ nl
           ++ "With 1 entiries" ++ nl ++ nl
           ++ "First & last being:" ++ nl
           ++ tabulate Demo.env
                (mk_ndarray [2; 2] (BStr ["0"; "00a"; "0"; "00a"]))
                ["height"; "hash"]),
     mk_world Demo.env Demo.db1
       [EvConnect Demo.conn_str;
        EvExecute (schema_statement "genesis");
        EvExecute (count_statement "genesis");
        EvExecute (boundary_statement "genesis" "height");
        EvCommit; EvClose]
       "").
Proof.
  apply (describe_table_single_row Demo.env Demo.conn_str "genesis" "height"
           Demo.genesis 0 Sql.int_le [PyInt 0; PyStr "00a"] Demo.world1).
  - repeat split.
  - discriminate.
  - reflexivity.
  - reflexivity.
Defined.

End More.
